(** * Blog-Application: authentication, validation and ownership contract

    A shallow embedding of the Express/Prisma blog backend:
      - [types/types.ts]      the zod schemas            (Module [Zod])
      - [middleware.ts]       the authorization guard    ([middleware])
      - [index.ts]            register and login         ([register], [login])
      - [routes/posts.ts]     the post handlers          (Module [Posts])
      - [routes/comments.ts]  the comment handlers       (Module [Comments])

    Handlers are programs over the calls they [await] (bcrypt, jsonwebtoken,
    the Prisma client); a call either returns or throws, and [try]/[catch]
    is the handler's own.  The programs are run against any implementation
    of those calls ([World]), and against an in-memory relational store
    ([Mem]) for the claims that speak about state. *)

From Stdlib Require Import String Ascii List ZArith Bool Arith Lia.
From Stdlib Require Import Sorting.Sorted Sorting.Permutation.
From Stdlib Require Import DecimalString.
Import ListNotations.
Open Scope string_scope.

(** ** JavaScript values *)

(** A request body as [express.json()] leaves it: a JSON value, or
    [undefined] when there is none.  Characters of a [string] stand for the
    code units that [String.prototype.length] counts; the keys of an object
    are distinct, as [JSON.parse] leaves them. *)
#[warnings="-register-all"]
Inductive jsval : Type :=
| JUndefined
| JNull
| JBool (b : bool)
| JNum (n : Z)
| JStr (s : string)
| JArr (items : list jsval)
| JObj (fields : list (string * jsval)).

Fixpoint assoc (k : string) (fields : list (string * jsval)) : option jsval :=
  match fields with
  | [] => None
  | (k', v) :: rest => if String.eqb k k' then Some v else assoc k rest
  end.

(** [v[k]] on a parsed body: an absent key reads as [undefined]. *)
Definition prop (v : jsval) (k : string) : jsval :=
  match v with
  | JObj fields => match assoc k fields with Some x => x | None => JUndefined end
  | _ => JUndefined
  end.

(** The payload carries the key [k] (with whatever value). *)
Definition supplies (v : jsval) (k : string) : Prop :=
  exists fields x, v = JObj fields /\ assoc k fields = Some x.

(** Truthiness, as [if (x)] and [!x] see it. *)
Definition truthy (v : jsval) : bool :=
  match v with
  | JUndefined | JNull => false
  | JBool b => b
  | JNum n => negb (Z.eqb n 0)
  | JStr s => negb (String.eqb s "")
  | JArr _ | JObj _ => true
  end.

Definition truthy_str (s : string) : bool := negb (String.eqb s "").

Definition truthy_opt (o : option string) : bool :=
  match o with Some s => truthy_str s | None => false end.

(** [a !== b] between a column value and [req.userId] ([string | undefined]). *)
Definition strict_neq (a : string) (b : option string) : bool :=
  match b with Some s => negb (String.eqb a s) | None => true end.

(** ** types/types.ts: the zod schemas *)

Module Zod.

(** What [safeParse] returns: [{success: true, data}] or
    [{success: false, error}].  The handlers only log [error], so the
    issue list is not kept. *)
Inductive SafeParse (T : Type) : Type :=
| Success (data : T)
| Failure.
Arguments Success {T} data.
Arguments Failure {T}.

Definition success {T} (r : SafeParse T) : bool :=
  match r with Success _ => true | Failure => false end.

(** [z.string().min(lo).max(hi)]; [hi = None] when there is no [.max]. *)
Record ZString := { min : nat; max : option nat }.

Definition check_length (sch : ZString) (s : string) : bool :=
  Nat.leb (min sch) (String.length s) &&
  match max sch with Some hi => Nat.leb (String.length s) hi | None => true end.

Definition parse_string (sch : ZString) (v : jsval) : SafeParse string :=
  match v with
  | JStr s => if check_length sch s then Success s else Failure
  | _ => Failure
  end.

(** [.optional()]: [undefined] is accepted and stays [undefined]. *)
Definition parse_optional (sch : ZString) (v : jsval) : SafeParse (option string) :=
  match v with
  | JUndefined => Success None
  | _ => match parse_string sch v with
         | Success s => Success (Some s)
         | Failure => Failure
         end
  end.

(** [z.object({...})] accepts plain objects only. *)
Definition is_object (v : jsval) : bool :=
  match v with JObj _ => true | _ => false end.

Record UserData := { username : string; email : string; password : string }.

Definition UserSchema (body : jsval) : SafeParse UserData :=
  if is_object body then
    match parse_string {| min := 3; max := Some 20 |} (prop body "username"),
          parse_string {| min := 1; max := None |} (prop body "email"),
          parse_string {| min := 8; max := Some 30 |} (prop body "password") with
    | Success u, Success e, Success p =>
        Success {| username := u; email := e; password := p |}
    | _, _, _ => Failure
    end
  else Failure.

Record SigninData :=
  { si_username : option string; si_email : option string; si_password : string }.

Definition SigninSchem (body : jsval) : SafeParse SigninData :=
  if is_object body then
    match parse_optional {| min := 3; max := Some 20 |} (prop body "username"),
          parse_optional {| min := 1; max := None |} (prop body "email"),
          parse_string {| min := 8; max := Some 30 |} (prop body "password") with
    | Success u, Success e, Success p =>
        Success {| si_username := u; si_email := e; si_password := p |}
    | _, _, _ => Failure
    end
  else Failure.

Record PostData := { title : string; content : string }.

Definition createPostSchema (body : jsval) : SafeParse PostData :=
  if is_object body then
    match parse_string {| min := 3; max := Some 20 |} (prop body "title"),
          parse_string {| min := 3; max := None |} (prop body "content") with
    | Success t, Success c => Success {| title := t; content := c |}
    | _, _ => Failure
    end
  else Failure.

Record PostPatch := { up_title : option string; up_content : option string }.

(** [.refine(data => data.title || data.content)] *)
Definition refine_update (d : PostPatch) : bool :=
  truthy_opt (up_title d) || truthy_opt (up_content d).

Definition updatePostSchema (body : jsval) : SafeParse PostPatch :=
  if is_object body then
    match parse_optional {| min := 3; max := Some 20 |} (prop body "title"),
          parse_optional {| min := 3; max := None |} (prop body "content") with
    | Success t, Success c =>
        let d := {| up_title := t; up_content := c |} in
        if refine_update d then Success d else Failure
    | _, _ => Failure
    end
  else Failure.

Record CommentData := { cm_content : string }.

Definition CommentSchema (body : jsval) : SafeParse CommentData :=
  if is_object body then
    match parse_string {| min := 3; max := Some 500 |} (prop body "content") with
    | Success c => Success {| cm_content := c |}
    | Failure => Failure
    end
  else Failure.

End Zod.

(** ** The relational model (prisma/migrations) *)

Definition timestamp := Z.

Record User := {
  u_id : string; u_username : string; u_email : string; u_password : string;
  u_created_at : timestamp; u_updated_at : timestamp }.

Record Post := {
  p_id : string; p_title : string; p_content : string; p_author_id : string;
  p_created_at : timestamp; p_updated_at : timestamp }.

Record Comment := {
  c_id : string; c_content : string; c_post_id : string; c_author_id : string;
  c_created_at : timestamp; c_updated_at : timestamp }.

(** [select: {id: true, username: true, email: true}] *)
Record Author := { a_id : string; a_username : string; a_email : string }.

(** [select: {id: true, username: true}] *)
Record AuthorBrief := { ab_id : string; ab_username : string }.

(** A comment with [include: {athor: {select: ...}}]. *)
Record CommentWithAthor := { cw_comment : Comment; cw_athor : option Author }.

(** A comment with [include: {athor: true}]. *)
Record CommentWithUser := { cu_comment : Comment; cu_athor : option User }.

(** The projection of [GET /comments]. *)
Record CommentBrief := {
  cb_athor : option AuthorBrief; cb_id : string; cb_content : string;
  cb_created_at : timestamp; cb_updated_at : timestamp }.

(** A post with [include: {author, comments: {include: {athor}}}]. *)
Record PostFull := {
  pf_post : Post; pf_author : option Author; pf_comments : list CommentWithAthor }.

(** A post with [include: {author}]. *)
Record PostWithAuthor := { pa_post : Post; pa_author : option Author }.

(** [orderBy: {created_at: "asc" | "desc"}] *)
Inductive SortOrder : Type := Asc | Desc.

(** [where] of [user.findUnique]. *)
Inductive UserWhere : Type :=
| ByUsername (username : string)
| ByEmail (email : string).

(** [updateData: Record<string, unknown>], holding at most [title] and
    [content]. *)
Record PostUpdateInput := { set_title : option string; set_content : option string }.

(** ** The calls a handler awaits *)

(** A thrown value. *)
Inductive JsError : Type := Error (message : string).

(** What [jwt.verify] hands back: the payload object (whose [userId] may be
    missing) or, for a token whose payload is not a JSON object, a string. *)
Inductive Decoded : Type :=
| DecodedPayload (userId : option string)
| DecodedString (s : string).

Definition truthy_decoded (d : Decoded) : bool :=
  match d with DecodedPayload _ => true | DecodedString s => truthy_str s end.

(** [decoded.userId] *)
Definition decoded_userId (d : Decoded) : option string :=
  match d with DecodedPayload u => u | DecodedString _ => None end.

Inductive Call : Type -> Type :=
(* bcrypt *)
| BcryptHash (data : string) (rounds : nat) : Call string
| BcryptCompare (data hash : string) : Call bool
(* jsonwebtoken *)
| JwtSign (userId secret : string) (expiresIn : option string) : Call string
| JwtVerify (token secret : string) : Call Decoded
(* Client.user *)
| UserCreate (username password email : string) : Call User
| UserFindUnique (w : UserWhere) : Call (option User)
(* Client.post *)
| PostCreate (author_id : option string) (title content : string) : Call Post
| PostFindMany (orderBy : option SortOrder) : Call (list PostFull)
| PostFindUnique (id : string) (commentsOrderBy : option SortOrder)
    : Call (option PostFull)
| PostSelectAuthorId (id : string) : Call (option string)
| PostUpdate (id : string) (data : PostUpdateInput) : Call PostWithAuthor
| PostDelete (id : string) : Call Post
(* Client.comment *)
| CommentCreate (post_id : jsval) (content : string) (author_id : option string)
    : Call CommentWithUser
| CommentFindMany (orderBy : option SortOrder) : Call (list CommentBrief)
| CommentFindManyByPost (post_id : string) (orderBy : option SortOrder)
    : Call (list CommentWithAthor)
| CommentSelectAuthorId (id : string) : Call (option string)
| CommentUpdate (id : string) (content : string) : Call Comment
| CommentDelete (id : string) : Call Comment.

(** The calls that reach the resource store. *)
Definition is_store {X} (c : Call X) : bool :=
  match c with
  | BcryptHash _ _ | BcryptCompare _ _ | JwtSign _ _ _ | JwtVerify _ _ => false
  | _ => true
  end.

Inductive Reply (X : Type) : Type :=
| Returns (x : X)
| Throws (e : JsError).
Arguments Returns {X} x.
Arguments Throws {X} e.

(** ** Handlers as programs *)

Inductive Prog (A : Type) : Type :=
| Ret (a : A)
| Throw (e : JsError)
| Vis {X : Type} (c : Call X) (k : Reply X -> Prog A).
Arguments Ret {A} a.
Arguments Throw {A} e.
Arguments Vis {A X} c k.

Fixpoint bind {A B} (p : Prog A) (f : A -> Prog B) : Prog B :=
  match p with
  | Ret a => f a
  | Throw e => Throw e
  | Vis c k => Vis c (fun r => bind (k r) f)
  end.

(** [await c]: the value, or the rejection rethrown at the await. *)
Definition await {X} (c : Call X) : Prog X :=
  Vis c (fun r => match r with Returns x => Ret x | Throws e => Throw e end).

(** [try { p } catch (e) { h e }] *)
Fixpoint try_catch {A} (p : Prog A) (h : JsError -> Prog A) : Prog A :=
  match p with
  | Ret a => Ret a
  | Throw e => h e
  | Vis c k => Vis c (fun r => try_catch (k r) h)
  end.

Declare Scope prog_scope.
Delimit Scope prog_scope with prog.
Notation "'let*' x ':=' p 'in' q" := (bind p (fun x => q))
  (at level 10, x name, p at level 100, q at level 200) : prog_scope.
Open Scope prog_scope.

(** One awaited call and what came back. *)
Inductive Event : Type := | Ev {X : Type} (c : Call X) (r : Reply X).

Definition ev_store (e : Event) : bool := match e with Ev c _ => is_store c end.
Definition ev_threw (e : Event) : bool :=
  match e with Ev _ (Throws _) => true | Ev _ (Returns _) => false end.

(** How a handler ends: it sent a response, or an error left it uncaught. *)
Inductive Outcome (A : Type) : Type :=
| Done (a : A)
| Uncaught (e : JsError).
Arguments Done {A} a.
Arguments Uncaught {A} e.

(** An implementation of the awaited calls over a state [W]. *)
Record World (W : Type) : Type :=
  { exec : forall X, Call X -> W -> Reply X * W }.
Arguments exec {W} _ {X} _ _.

Fixpoint run {W A} (impl : World W) (p : Prog A) (w : W)
  : Outcome A * W * list Event :=
  match p with
  | Ret a => (Done a, w, [])
  | Throw e => (Uncaught e, w, [])
  | Vis c k =>
      let '(r, w1) := exec impl c w in
      let '(o, w2, t) := run impl (k r) w1 in
      (o, w2, Ev c r :: t)
  end.

Definition outcome {W A} (x : Outcome A * W * list Event) : Outcome A := fst (fst x).
Definition final {W A} (x : Outcome A * W * list Event) : W := snd (fst x).
Definition trace {W A} (x : Outcome A * W * list Event) : list Event := snd x.

(** ** The HTTP side *)

(** What the handlers read of [req]: the [authorization] header, the route
    parameter ([:postId] or [:commentId], [""] on routes without one), the
    parsed body, and [userId] once the guard has set it. *)
Record Request := {
  authorization : option string;
  param : string;
  req_body : jsval;
  userId : option string }.

Definition set_userId (req : Request) (u : option string) : Request :=
  {| authorization := authorization req; param := param req;
     req_body := req_body req; userId := u |}.

Inductive Body : Type :=
| NoBody
| Message (message : string)
| MessageUserId (message userId : string)
| MessageToken (message token : string)
| MessagePostId (message postId : string)
| MessageAllPosts (message : string) (allPosts : list PostFull)
| MessagePost (message : string) (post : PostFull)
| MessageUpdatedPost (message : string) (post : PostWithAuthor)
| MessageCommentId (message commentId : string)
| AllCommentsMessage (allComments : list CommentBrief) (message : string)
| MessageComments (message : string) (comments : list CommentWithAthor)
| MessageComment (message : string) (comment : Comment).

Record Response := { status : nat; body : Body }.

(** [res.status(code).json(b)]; [res.json(b)] is [json 200 b]. *)
Definition json (code : nat) (b : Body) : Response := {| status := code; body := b |}.
(** [res.status(code).send()] *)
Definition send (code : nat) : Response := {| status := code; body := NoBody |}.

Definition Handler := Request -> Prog Response.

(** [!x] on an array is always [false]: arrays are objects. *)
Definition truthy_array {T} (l : list T) : bool := true.

(** ** routes/posts.ts *)

Module Posts.

(** [router.post("/")] *)
Definition create : Handler := fun req =>
  match Zod.createPostSchema (req_body req) with
  | Zod.Failure => Ret (json 400 (Message "Validationn Failed"))
  | Zod.Success data =>
      try_catch
        (let* createPost :=
           await (PostCreate (userId req) (Zod.title data) (Zod.content data)) in
         Ret (json 200 (MessagePostId "Post Created" (p_id createPost))))
        (fun e => Ret (json 500 (Message "Unable to create Post")))
  end.

(** [router.get("/")] *)
Definition list : Handler := fun req =>
  try_catch
    (let* allPosts := await (PostFindMany (Some Desc)) in
     if negb (truthy_array allPosts) then
       Ret (json 404 (Message "Posts not found"))
     else
       Ret (json 200 (MessageAllPosts "Got all posts" allPosts)))
    (fun e => Ret (json 500 (Message "Error from server, not able to get post"))).

(** [router.get("/:postId")] *)
Definition get : Handler := fun req =>
  let postId := param req in
  if negb (truthy_str postId) then
    Ret (json 400 (Message "Post ID is required"))
  else
    try_catch
      (let* post := await (PostFindUnique postId (Some Desc)) in
       match post with
       | None => Ret (json 404 (Message "Post not found"))
       | Some post => Ret (json 200 (MessagePost "Got the single post" post))
       end)
      (fun e =>
         Ret (json 500 (Message "Error from server, not able to get the single post"))).

(** [updateData], filled from the fields that are not [undefined]. *)
Definition updateData (data : Zod.PostPatch) : PostUpdateInput :=
  {| set_title := Zod.up_title data; set_content := Zod.up_content data |}.

(** [router.put("/:postId")] *)
Definition update : Handler := fun req =>
  let postId := param req in
  if negb (truthy_str postId) then
    Ret (json 400 (Message "Post ID is required"))
  else
    match Zod.updatePostSchema (req_body req) with
    | Zod.Failure => Ret (json 400 (Message "Incorrect input"))
    | Zod.Success data =>
        try_catch
          (let* postUpdate := await (PostSelectAuthorId postId) in
           match postUpdate with
           | None => Ret (json 404 (Message "Post not found"))
           | Some author_id =>
               if strict_neq author_id (userId req) then
                 Ret (json 403 (Message "Invalid author"))
               else
                 let* updatePost := await (PostUpdate postId (updateData data)) in
                 Ret (json 200 (MessageUpdatedPost "Post updated" updatePost))
           end)
          (fun e => Ret (json 500 (Message "Server error")))
    end.

(** [router.delete("/:postId")] *)
Definition delete : Handler := fun req =>
  let postId := param req in
  if negb (truthy_str postId) then
    Ret (json 400 (Message "Post ID is required"))
  else
    try_catch
      (let* postDelete := await (PostSelectAuthorId postId) in
       match postDelete with
       | None => Ret (json 404 (Message "Post not found"))
       | Some author_id =>
           if strict_neq author_id (userId req) then
             Ret (json 403 (Message "Invalid author"))
           else
             let* _ := await (PostDelete postId) in
             Ret (send 204)
       end)
      (fun e => Ret (json 500 (Message "Server error"))).

End Posts.

(** ** routes/comments.ts *)

Module Comments.

(** [router.post("/comments")] *)
Definition create : Handler := fun req =>
  match Zod.CommentSchema (req_body req) with
  | Zod.Failure => Ret (json 400 (Message "Invalid input"))
  | Zod.Success data =>
      let content := Zod.cm_content data in
      let postId := prop (req_body req) "post_id" in
      if negb (truthy postId) then
        Ret (json 400 (Message "postId is required"))
      else
        try_catch
          (let* comment := await (CommentCreate postId content (userId req)) in
           Ret (json 201 (MessageCommentId "Comment created"
                            (c_id (cu_comment comment)))))
          (fun e => Ret (json 500 (Message "Unable to create comment")))
  end.

(** [router.get("/comments")].  The [!allComments] branch has no [return];
    it cannot be entered, [findMany] resolving to an array. *)
Definition list : Handler := fun req =>
  try_catch
    (let* allComments := await (CommentFindMany (Some Desc)) in
     if negb (truthy_array allComments) then
       Ret (json 404 (Message "Post not found"))
     else
       Ret (json 200 (AllCommentsMessage allComments "Get all comments")))
    (fun e => Ret (json 500 (Message "Server error"))).

(** [router.get("/post/:postId")] *)
Definition listByPost : Handler := fun req =>
  let postId := param req in
  try_catch
    (let* comments := await (CommentFindManyByPost postId (Some Desc)) in
     Ret (json 200 (MessageComments "Got comments" comments)))
    (fun e => Ret (json 500 (Message "Unable to fetch comments"))).

(** [router.put("/comments/:commentId")] *)
Definition update : Handler := fun req =>
  let commentId := param req in
  match Zod.CommentSchema (req_body req) with
  | Zod.Failure => Ret (json 400 (Message "Invalid input"))
  | Zod.Success data =>
      try_catch
        (let* found := await (CommentSelectAuthorId commentId) in
         match found with
         | None => Ret (json 404 (Message "Comment not found"))
         | Some author_id =>
             if strict_neq author_id (userId req) then
               Ret (json 403 (Message "Invalid author"))
             else
               let* updated :=
                 await (CommentUpdate commentId (Zod.cm_content data)) in
               Ret (json 200 (MessageComment "Comment updated" updated))
         end)
        (fun e => Ret (json 500 (Message "Unable to update comment")))
  end.

(** [router.delete("/comments/:commentId")] *)
Definition delete : Handler := fun req =>
  let commentId := param req in
  try_catch
    (let* found := await (CommentSelectAuthorId commentId) in
     match found with
     | None => Ret (json 404 (Message "Comment not found"))
     | Some author_id =>
         if strict_neq author_id (userId req) then
           Ret (json 403 (Message "Invalid author"))
         else
           let* _ := await (CommentDelete commentId) in
           Ret (send 204)
     end)
    (fun e => Ret (json 500 (Message "Unable to delete comment"))).

End Comments.

(** ** The application: guard, account handlers and the route table *)

Section App.

(** [config.ts]: the signing secret, read once at start-up. *)
Variable JWT_SECRET : string.

(** *** middleware.ts *)

Definition middleware (next : Handler) : Handler := fun req =>
  let token := match authorization req with Some t => t | None => "" end in
  let* decoded := await (JwtVerify token JWT_SECRET) in
  if truthy_decoded decoded then
    next (set_userId req (decoded_userId decoded))
  else
    Ret (json 404 (Message "Not Authorized")).

(** *** index.ts *)

Definition register : Handler := fun req =>
  match Zod.UserSchema (req_body req) with
  | Zod.Failure => Ret (json 422 (Message "Incorrect input"))
  | Zod.Success data =>
      try_catch
        (let* hashedPassword := await (BcryptHash (Zod.password data) 10) in
         let* user := await (UserCreate (Zod.username data) hashedPassword
                                        (Zod.email data)) in
         Ret (json 200 (MessageUserId "Registration successfull" (u_id user))))
        (fun e => Ret (json 409 (Message "User Already exists")))
  end.

(** A present and truthy optional field. *)
Definition if_truthy (o : option string) : option string :=
  match o with
  | Some s => if truthy_str s then Some s else None
  | None => None
  end.

Definition login : Handler := fun req =>
  match Zod.SigninSchem (req_body req) with
  | Zod.Failure => Ret (json 422 (Message "Invalid Input"))
  | Zod.Success data =>
      let* user :=
        match if_truthy (Zod.si_username data) with
        | Some username => await (UserFindUnique (ByUsername username))
        | None =>
            match if_truthy (Zod.si_email data) with
            | Some email => await (UserFindUnique (ByEmail email))
            | None => Ret None
            end
        end in
      match user with
      | None => Ret (json 404 (Message "Not Authorized"))
      | Some user =>
          let* isPassword :=
            await (BcryptCompare (Zod.si_password data) (u_password user)) in
          if negb isPassword then
            Ret (json 401 (Message "Not correct password"))
          else
            let* token := await (JwtSign (u_id user) JWT_SECRET (Some "1h")) in
            Ret (json 200 (MessageToken "Login successful" token))
      end
  end.

(** The operations of the HTTP surface. *)
Inductive Operation : Type :=
| Register | Login
| CreatePost | ListPosts | GetPost | UpdatePost | DeletePost
| CreateComment | ListComments | ListCommentsByPost | UpdateComment | DeleteComment.

(** The business handler of an operation. *)
Definition handler (op : Operation) : Handler :=
  match op with
  | Register => register
  | Login => login
  | CreatePost => Posts.create
  | ListPosts => Posts.list
  | GetPost => Posts.get
  | UpdatePost => Posts.update
  | DeletePost => Posts.delete
  | CreateComment => Comments.create
  | ListComments => Comments.list
  | ListCommentsByPost => Comments.listByPost
  | UpdateComment => Comments.update
  | DeleteComment => Comments.delete
  end.

(** The routes that list [middleware] before their handler. *)
Definition protected (op : Operation) : bool :=
  match op with Register | Login => false | _ => true end.

(** A route as Express runs it. *)
Definition route (op : Operation) : Handler :=
  if protected op then middleware (handler op) else handler op.

End App.

(** ** An in-memory store behind the Prisma client *)

Module Mem.

(** The three tables, the store's clock ([CURRENT_TIMESTAMP]) and the
    counter behind generated ids. *)
Record Db := {
  users : list User;
  posts : list Post;
  comments : list Comment;
  now : timestamp;
  next_id : nat }.

(** The credential primitives ([bcrypt], [jsonwebtoken]), each of which
    returns or throws. *)
Record Credentials := {
  hash : string -> nat -> Reply string;
  compare : string -> string -> Reply bool;
  sign : string -> string -> option string -> Reply string;
  verify : string -> string -> Reply Decoded }.

Definition fresh_id (db : Db) : string :=
  "id-" ++ NilEmpty.string_of_uint (Nat.to_uint (next_id db)).

(** *** [ORDER BY created_at DESC] *)

Fixpoint insert_desc {T} (key : T -> Z) (x : T) (l : list T) : list T :=
  match l with
  | [] => [x]
  | y :: rest =>
      if Z.leb (key y) (key x) then x :: y :: rest
      else y :: insert_desc key x rest
  end.

Fixpoint sort_desc {T} (key : T -> Z) (l : list T) : list T :=
  match l with
  | [] => []
  | x :: rest => insert_desc key x (sort_desc key rest)
  end.

Definition order_by {T} (o : option SortOrder) (key : T -> Z) (l : list T) : list T :=
  match o with
  | Some Desc => sort_desc key l
  | Some Asc => sort_desc (fun x => (- key x)%Z) l
  | None => l
  end.

(** *** Rows and relations *)

Definition user_by_id (id : string) (db : Db) : option User :=
  find (fun u => String.eqb (u_id u) id) (users db).

Definition find_user (w : UserWhere) (db : Db) : option User :=
  match w with
  | ByUsername n => find (fun u => String.eqb (u_username u) n) (users db)
  | ByEmail e => find (fun u => String.eqb (u_email u) e) (users db)
  end.

Definition find_post (id : string) (db : Db) : option Post :=
  find (fun p => String.eqb (p_id p) id) (posts db).

Definition find_comment (id : string) (db : Db) : option Comment :=
  find (fun c => String.eqb (c_id c) id) (comments db).

Definition author_of (id : string) (db : Db) : option Author :=
  option_map (fun u => {| a_id := u_id u; a_username := u_username u;
                          a_email := u_email u |}) (user_by_id id db).

Definition author_brief_of (id : string) (db : Db) : option AuthorBrief :=
  option_map (fun u => {| ab_id := u_id u; ab_username := u_username u |})
             (user_by_id id db).

Definition with_athor (db : Db) (c : Comment) : CommentWithAthor :=
  {| cw_comment := c; cw_athor := author_of (c_author_id c) db |}.

Definition brief (db : Db) (c : Comment) : CommentBrief :=
  {| cb_athor := author_brief_of (c_author_id c) db; cb_id := c_id c;
     cb_content := c_content c; cb_created_at := c_created_at c;
     cb_updated_at := c_updated_at c |}.

Definition comments_of (post : string) (db : Db) : list Comment :=
  filter (fun c => String.eqb (c_post_id c) post) (comments db).

Definition with_author (db : Db) (p : Post) : PostWithAuthor :=
  {| pa_post := p; pa_author := author_of (p_author_id p) db |}.

(** [include: {author, comments: {include: {athor}, orderBy}}]; the list
    query gives the comments no [orderBy]. *)
Definition full (commentsOrderBy : option SortOrder) (db : Db) (p : Post) : PostFull :=
  {| pf_post := p;
     pf_author := author_of (p_author_id p) db;
     pf_comments :=
       map (with_athor db)
           (order_by commentsOrderBy c_created_at (comments_of (p_id p) db)) |}.

(** *** Writes *)

Definition tick (db : Db) (us : list User) (ps : list Post) (cs : list Comment)
                (used_id : bool) : Db :=
  {| users := us; posts := ps; comments := cs; now := (now db + 1)%Z;
     next_id := if used_id then S (next_id db) else next_id db |}.

(** [User_email_key] and the unique [username] that [findUnique] relies on. *)
Definition user_create (username password email : string) (db : Db)
  : Reply User * Db :=
  if existsb (fun u => String.eqb (u_username u) username
                       || String.eqb (u_email u) email) (users db)
  then (Throws (Error "Unique constraint failed"), db)
  else
    let u := {| u_id := fresh_id db; u_username := username; u_email := email;
                u_password := password; u_created_at := now db;
                u_updated_at := now db |} in
    (Returns u, tick db (users db ++ [u]) (posts db) (comments db) true).

(** [Post_author_id_fkey] *)
Definition post_create (author_id : option string) (title content : string)
                       (db : Db) : Reply Post * Db :=
  match author_id with
  | None => (Throws (Error "Argument author_id is missing"), db)
  | Some a =>
      match user_by_id a db with
      | None => (Throws (Error "Foreign key constraint failed"), db)
      | Some _ =>
          let p := {| p_id := fresh_id db; p_title := title; p_content := content;
                      p_author_id := a; p_created_at := now db;
                      p_updated_at := now db |} in
          (Returns p, tick db (users db) (posts db ++ [p]) (comments db) true)
      end
  end.

(** The row after [UPDATE ... SET] with the fields [data] holds. *)
Definition patch (data : PostUpdateInput) (at_ : timestamp) (p : Post) : Post :=
  {| p_id := p_id p;
     p_title := match set_title data with Some t => t | None => p_title p end;
     p_content := match set_content data with Some c => c | None => p_content p end;
     p_author_id := p_author_id p;
     p_created_at := p_created_at p;
     p_updated_at := at_ |}.

Definition post_update (id : string) (data : PostUpdateInput) (db : Db)
  : Reply PostWithAuthor * Db :=
  match find_post id db with
  | None => (Throws (Error "Record to update not found"), db)
  | Some p =>
      let ps := map (fun q => if String.eqb (p_id q) id
                              then patch data (now db) q else q) (posts db) in
      (Returns (with_author db (patch data (now db) p)),
       tick db (users db) ps (comments db) false)
  end.

(** [Comment_post_id_fkey ... ON DELETE RESTRICT] *)
Definition post_delete (id : string) (db : Db) : Reply Post * Db :=
  match find_post id db with
  | None => (Throws (Error "Record to delete does not exist"), db)
  | Some p =>
      if existsb (fun c => String.eqb (c_post_id c) id) (comments db)
      then (Throws (Error "Foreign key constraint failed"), db)
      else
        let ps := filter (fun q => negb (String.eqb (p_id q) id)) (posts db) in
        (Returns p, tick db (users db) ps (comments db) false)
  end.

(** [Comment_post_id_fkey], [Comment_author_id_fkey] *)
Definition comment_create (post_id : jsval) (content : string)
                          (author_id : option string) (db : Db)
  : Reply CommentWithUser * Db :=
  match post_id, author_id with
  | JStr pid, Some a =>
      match find_post pid db, user_by_id a db with
      | Some _, Some u =>
          let c := {| c_id := fresh_id db; c_content := content; c_post_id := pid;
                      c_author_id := a; c_created_at := now db;
                      c_updated_at := now db |} in
          (Returns {| cu_comment := c; cu_athor := Some u |},
           tick db (users db) (posts db) (comments db ++ [c]) true)
      | _, _ => (Throws (Error "Foreign key constraint failed"), db)
      end
  | _, _ => (Throws (Error "Invalid argument"), db)
  end.

Definition set_content_of (content : string) (at_ : timestamp) (c : Comment)
  : Comment :=
  {| c_id := c_id c; c_content := content; c_post_id := c_post_id c;
     c_author_id := c_author_id c; c_created_at := c_created_at c;
     c_updated_at := at_ |}.

Definition comment_update (id content : string) (db : Db) : Reply Comment * Db :=
  match find_comment id db with
  | None => (Throws (Error "Record to update not found"), db)
  | Some c =>
      let cs := map (fun q => if String.eqb (c_id q) id
                              then set_content_of content (now db) q else q)
                    (comments db) in
      (Returns (set_content_of content (now db) c),
       tick db (users db) (posts db) cs false)
  end.

Definition comment_delete (id : string) (db : Db) : Reply Comment * Db :=
  match find_comment id db with
  | None => (Throws (Error "Record to delete does not exist"), db)
  | Some c =>
      let cs := filter (fun q => negb (String.eqb (c_id q) id)) (comments db) in
      (Returns c, tick db (users db) (posts db) cs false)
  end.

(** *** The client *)

Definition exec_mem (cs : Credentials) (X : Type) (c : Call X) (db : Db)
  : Reply X * Db :=
  match c in Call X return Reply X * Db with
  | BcryptHash d r => (hash cs d r, db)
  | BcryptCompare d h => (compare cs d h, db)
  | JwtSign u s e => (sign cs u s e, db)
  | JwtVerify t s => (verify cs t s, db)
  | UserCreate n p e => user_create n p e db
  | UserFindUnique w => (Returns (find_user w db), db)
  | PostCreate a t c => post_create a t c db
  | PostFindMany o =>
      (Returns (map (full None db) (order_by o p_created_at (posts db))), db)
  | PostFindUnique id o => (Returns (option_map (full o db) (find_post id db)), db)
  | PostSelectAuthorId id => (Returns (option_map p_author_id (find_post id db)), db)
  | PostUpdate id d => post_update id d db
  | PostDelete id => post_delete id db
  | CommentCreate p c a => comment_create p c a db
  | CommentFindMany o =>
      (Returns (map (brief db) (order_by o c_created_at (comments db))), db)
  | CommentFindManyByPost p o =>
      (Returns (map (with_athor db) (order_by o c_created_at (comments_of p db))), db)
  | CommentSelectAuthorId id =>
      (Returns (option_map c_author_id (find_comment id db)), db)
  | CommentUpdate id c => comment_update id c db
  | CommentDelete id => comment_delete id db
  end.

Definition world (cs : Credentials) : World Db := {| exec := exec_mem cs |}.

End Mem.

(** ** Sample data *)

Module Sample.

(** Stand-ins for the credential primitives: a hash that can be compared,
    a token that carries its subject and is checked against the secret. *)
Definition creds : Mem.Credentials := {|
  Mem.hash := fun data _ => Returns ("$2b$" ++ data);
  Mem.compare := fun data h => Returns (String.eqb h ("$2b$" ++ data));
  Mem.sign := fun uid secret _ => Returns (secret ++ "." ++ uid);
  Mem.verify := fun token secret =>
    if String.eqb token "" then Throws (Error "jwt must be provided")
    else if String.prefix (secret ++ ".") token
    then Returns (DecodedPayload
           (Some (String.substring (String.length secret + 1)
                    (String.length token - (String.length secret + 1)) token)))
    else Throws (Error "invalid signature") |}.

Definition secret : string := "s3cr3t".

Definition alice : User :=
  {| u_id := "u1"; u_username := "alice"; u_email := "alice@example.com";
     u_password := "$2b$correct-horse"; u_created_at := 1%Z; u_updated_at := 1%Z |}.

Definition bob : User :=
  {| u_id := "u2"; u_username := "bob"; u_email := "bob@example.com";
     u_password := "$2b$battery-staple"; u_created_at := 2%Z; u_updated_at := 2%Z |}.

Definition post1 : Post :=
  {| p_id := "p1"; p_title := "First"; p_content := "first post";
     p_author_id := "u1"; p_created_at := 10%Z; p_updated_at := 10%Z |}.

Definition post2 : Post :=
  {| p_id := "p2"; p_title := "Second"; p_content := "second post";
     p_author_id := "u2"; p_created_at := 20%Z; p_updated_at := 20%Z |}.

Definition post3 : Post :=
  {| p_id := "p3"; p_title := "Third"; p_content := "third post";
     p_author_id := "u1"; p_created_at := 30%Z; p_updated_at := 30%Z |}.

Definition comment1 : Comment :=
  {| c_id := "c1"; c_content := "nice"; c_post_id := "p1"; c_author_id := "u2";
     c_created_at := 11%Z; c_updated_at := 11%Z |}.

Definition comment2 : Comment :=
  {| c_id := "c2"; c_content := "thanks"; c_post_id := "p1"; c_author_id := "u1";
     c_created_at := 12%Z; c_updated_at := 12%Z |}.

Definition db : Mem.Db :=
  {| Mem.users := [alice; bob];
     Mem.posts := [post1; post2; post3];
     Mem.comments := [comment1; comment2];
     Mem.now := 100%Z; Mem.next_id := 7 |}.

(** A request from [who] (a user id, signed with [secret]) on [id] with
    [payload]; [anonymous] carries no [authorization] header. *)
Definition request (who id : string) (payload : jsval) : Request :=
  {| authorization := Some (secret ++ "." ++ who); param := id;
     req_body := payload; userId := None |}.

Definition anonymous (id : string) (payload : jsval) : Request :=
  {| authorization := None; param := id; req_body := payload; userId := None |}.

(** A client whose database cannot be reached: every query rejects. *)
Definition exec_outage (X : Type) (c : Call X) (w : unit) : Reply X * unit :=
  if is_store c then (Throws (Error "Can't reach database server"), w)
  else (fst (Mem.exec_mem creds X c db), w).

Definition outage : World unit := {| exec := exec_outage |}.

End Sample.

(** The [where] clauses of the user lookups in a trace, in order. *)
Definition lookups (t : list Event) : list UserWhere :=
  flat_map (fun e => match e with
                     | Ev (UserFindUnique w) _ => [w]
                     | Ev _ _ => []
                     end) t.

(** The lookup that a parsed login payload selects. *)
Definition lookup_of (d : Zod.SigninData) : list UserWhere :=
  match Zod.si_username d with
  | Some u => [ByUsername u]
  | None => match Zod.si_email d with
            | Some e => [ByEmail e]
            | None => []
            end
  end.

(** A store call in the trace was rejected. *)
Definition store_threw (t : list Event) : bool :=
  existsb (fun e => ev_store e && ev_threw e) t.

(** The token the guard verifies: the header, or [""] without one. *)
Definition presented (req : Request) : string :=
  match authorization req with Some t => t | None => "" end.

(** The guard accepts the request's token as that of user [uid]. *)
Definition authenticated (cs : Mem.Credentials) (secret : string)
                         (req : Request) (uid : string) : Prop :=
  Mem.verify cs (presented req) secret = Returns (DecodedPayload (Some uid)).

(** The guard's entry in the trace of an authenticated request. *)
Definition verified (secret : string) (req : Request) (uid : string) : Event :=
  Ev (JwtVerify (presented req) secret) (Returns (DecodedPayload (Some uid))).

(** Newest first. *)
Definition descending {T} (key : T -> Z) (l : list T) : Prop :=
  StronglySorted (fun a b => (key b <= key a)%Z) l.

(** The statuses each business handler sends, read off its [res.status]
    calls ([res.json] alone is 200). *)
Definition statuses (op : Operation) : list nat :=
  match op with
  | Register => [200; 409; 422]
  | Login => [200; 401; 404; 422]
  | CreatePost => [200; 400; 500]
  | ListPosts => [200; 500]
  | GetPost => [200; 400; 404; 500]
  | UpdatePost => [200; 400; 403; 404; 500]
  | DeletePost => [204; 400; 403; 404; 500]
  | CreateComment => [201; 400; 500]
  | ListComments => [200; 500]
  | ListCommentsByPost => [200; 500]
  | UpdateComment => [200; 400; 403; 404; 500]
  | DeleteComment => [204; 403; 404; 500]
  end.

(** The store calls that change or remove an existing row. *)
Definition is_mutation {X} (c : Call X) : bool :=
  match c with
  | PostUpdate _ _ | PostDelete _ | CommentUpdate _ _ | CommentDelete _ => true
  | _ => false
  end.

Definition ev_mutation (e : Event) : bool :=
  match e with Ev c _ => is_mutation c end.

(** The store calls that write at all. *)
Definition is_write {X} (c : Call X) : bool :=
  match c with
  | UserCreate _ _ _ | PostCreate _ _ _ | CommentCreate _ _ _ => true
  | c' => is_mutation c'
  end.

Definition ev_write (e : Event) : bool := match e with Ev c _ => is_write c end.

(** A 2xx answer. *)
Definition ok (resp : Response) : bool := Nat.ltb (status resp) 300.

(** ** tests/integration.test.ts: the guard of [createIntegratedApp] *)

Module IntegrationTest.

Definition JWT_SECRET : string := "test-secret-key".

(** The test application's own guard: [|| ""] on the header, [jwt.verify]
    inside [try], and the 404 in the [catch].  [next()] starts an [async]
    handler, whose errors are rejections of its promise and never reach
    this [catch]. *)
Definition middleware (next : Handler) : Handler := fun req =>
  let token := match authorization req with
               | Some t => if truthy_str t then t else ""
               | None => ""
               end in
  Vis (JwtVerify token JWT_SECRET)
      (fun r => match r with
                | Returns decoded => next (set_userId req (decoded_userId decoded))
                | Throws e => Ret (json 404 (Message "Not Authorized"))
                end).

End IntegrationTest.

Arguments Mem.post_update : simpl never.
Arguments Mem.post_delete : simpl never.
Arguments Mem.comment_update : simpl never.
Arguments Mem.comment_delete : simpl never.
Arguments Mem.find_post : simpl never.
Arguments Mem.find_comment : simpl never.
Arguments Mem.sort_desc : simpl never.
Arguments strict_neq : simpl never.
Arguments truthy_str : simpl never.

(** * Properties *)

(** ** Validation *)

Lemma truthy_str_length (s : string) :
  1 <= String.length s -> truthy_str s = true.
Proof. destruct s; simpl; [lia | reflexivity]. Qed.

Lemma check_length_bounds (sch : Zod.ZString) (s : string) :
  Zod.check_length sch s = true <->
  Zod.min sch <= String.length s /\
  match Zod.max sch with Some hi => String.length s <= hi | None => True end.
Proof.
  unfold Zod.check_length. rewrite andb_true_iff, Nat.leb_le.
  destruct (Zod.max sch); [rewrite Nat.leb_le|]; intuition.
Qed.

Lemma parse_string_success (sch : Zod.ZString) (v : jsval) (s : string) :
  Zod.parse_string sch v = Zod.Success s ->
  v = JStr s /\ Zod.check_length sch s = true.
Proof.
  destruct v; simpl; try discriminate.
  destruct (Zod.check_length sch s0) eqn:E; [|discriminate].
  intros [= <-]; auto.
Qed.

Lemma parse_string_out_of_bounds (sch : Zod.ZString) (s : string) :
  Zod.check_length sch s = false -> Zod.parse_string sch (JStr s) = Zod.Failure.
Proof. simpl; intros ->; reflexivity. Qed.

Lemma parse_optional_success (sch : Zod.ZString) (v : jsval) (o : option string) :
  Zod.parse_optional sch v = Zod.Success o ->
  match o with
  | None => v = JUndefined
  | Some s => v = JStr s /\ Zod.check_length sch s = true
  end.
Proof.
  unfold Zod.parse_optional.
  destruct v; try (intros [= <-]; reflexivity); try discriminate.
  destruct (Zod.parse_string sch (JStr s)) eqn:E; [|discriminate].
  intros [= <-]. now apply parse_string_success.
Qed.

Lemma prop_not_supplied (v : jsval) (k : string) :
  ~ supplies v k -> prop v k = JUndefined.
Proof.
  intros H. destruct v; try reflexivity. simpl.
  destruct (assoc k fields) eqn:E; [|reflexivity].
  exfalso; apply H; now exists fields, j.
Qed.

(** A parsed optional field, when present, is a non-empty string: for the
    schemas of this application [if (data.field)] tests presence. *)
Lemma if_truthy_parsed (sch : Zod.ZString) (v : jsval) (o : option string) :
  1 <= Zod.min sch ->
  Zod.parse_optional sch v = Zod.Success o -> if_truthy o = o.
Proof.
  intros Hmin H. apply parse_optional_success in H.
  destruct o as [s|]; [|reflexivity]. destruct H as [_ H].
  apply check_length_bounds in H. simpl.
  rewrite truthy_str_length; [reflexivity | lia].
Qed.

Lemma SigninSchem_success (body : jsval) (d : Zod.SigninData) :
  Zod.SigninSchem body = Zod.Success d ->
  if_truthy (Zod.si_username d) = Zod.si_username d /\
  if_truthy (Zod.si_email d) = Zod.si_email d /\
  8 <= String.length (Zod.si_password d) <= 30.
Proof.
  unfold Zod.SigninSchem. destruct (Zod.is_object body); [|discriminate].
  destruct (Zod.parse_optional _ (prop body "username")) as [u|] eqn:Eu; [|discriminate].
  destruct (Zod.parse_optional _ (prop body "email")) as [e|] eqn:Ee; [|discriminate].
  destruct (Zod.parse_string _ (prop body "password")) as [p|] eqn:Ep; [|discriminate].
  intros [= <-]; simpl.
  apply if_truthy_parsed in Eu; [|simpl; lia].
  apply if_truthy_parsed in Ee; [|simpl; lia].
  apply parse_string_success in Ep. destruct Ep as [_ Ep].
  apply check_length_bounds in Ep. simpl in Ep. repeat split; auto; lia.
Qed.

Lemma updatePostSchema_success (body : jsval) (d : Zod.PostPatch) :
  Zod.updatePostSchema body = Zod.Success d ->
  Zod.up_title d <> None \/ Zod.up_content d <> None.
Proof.
  unfold Zod.updatePostSchema. destruct (Zod.is_object body); [|discriminate].
  destruct (Zod.parse_optional _ (prop body "title")) as [t|]; [|discriminate].
  destruct (Zod.parse_optional _ (prop body "content")) as [c|]; [|discriminate].
  destruct (Zod.refine_update _) eqn:R; [|discriminate].
  intros [= <-]. unfold Zod.refine_update in R; simpl in *.
  destruct t; [left; discriminate|]. destruct c; [right; discriminate|].
  discriminate.
Qed.

(** ** Running handlers *)

(** Case analysis on what each awaited call replies, and on the values
    the handler then branches on. *)
Ltac run_cases :=
  repeat (cbn;
          match goal with
          | |- context [exec ?impl ?c ?w] =>
              destruct (exec impl c w) as [[?|?] ?] eqn:?
          | |- context [match ?x with Some _ => _ | None => _ end] =>
              is_var x; destruct x
          | |- context [match ?x with Zod.Success _ => _ | Zod.Failure => _ end] =>
              destruct x eqn:?
          | |- context [if negb ?b then _ else _] => destruct b eqn:?
          | |- context [if ?b then _ else _] => destruct b eqn:?
          end);
  cbn.

(** C6. A registration payload whose username has fewer than 3 or more than
    20 characters is answered 422 "Incorrect input"; the handler awaits
    nothing on that path, so no store write (indeed no call at all) occurs
    and the world is as it was. *)
Theorem register_rejects_username_out_of_bounds :
  forall (W : Type) (impl : World W) (w : W) (secret : string)
         (req : Request) (u : string),
    prop (req_body req) "username" = JStr u ->
    String.length u < 3 \/ 20 < String.length u ->
    run impl (route secret Register req) w
    = (Done (json 422 (Message "Incorrect input")), w, []).
Proof.
  intros W impl w secret req u Hu Hlen.
  change (route secret Register req) with (register req).
  unfold register, Zod.UserSchema.
  destruct (Zod.is_object (req_body req)); [|reflexivity].
  rewrite Hu, parse_string_out_of_bounds; [reflexivity|].
  match goal with |- ?c = false => destruct c eqn:E end; [|reflexivity].
  apply check_length_bounds in E; simpl in E; lia.
Qed.

Lemma register_rejects_username_out_of_bounds_witness :
  run (Mem.world Sample.creds)
      (route Sample.secret Register
         (Sample.anonymous "" (JObj [("username", JStr "al");
                                     ("email", JStr "al@example.com");
                                     ("password", JStr "long-enough")])))
      Sample.db
  = (Done (json 422 (Message "Incorrect input")), Sample.db, []).
Proof.
  apply (register_rejects_username_out_of_bounds _ _ _ _ _ "al").
  - reflexivity.
  - simpl; lia.
Defined.

(** C7. An Update Post payload that supplies neither [title] nor [content]
    fails validation, and the handler then answers 400 without awaiting any
    call; [safeParse] is a total function into the tagged result, and a
    success carries at least one of the two fields. *)
Theorem update_post_requires_a_field :
  forall (req : Request),
    (~ supplies (req_body req) "title" -> ~ supplies (req_body req) "content" ->
     Zod.updatePostSchema (req_body req) = Zod.Failure /\
     forall (W : Type) (impl : World W) (w : W), exists msg,
       run impl (Posts.update req) w = (Done (json 400 (Message msg)), w, []))
    /\ (Zod.updatePostSchema (req_body req) = Zod.Failure \/
        exists d, Zod.updatePostSchema (req_body req) = Zod.Success d /\
                  (Zod.up_title d <> None \/ Zod.up_content d <> None)).
Proof.
  intros req. split.
  - intros Ht Hc.
    assert (F : Zod.updatePostSchema (req_body req) = Zod.Failure).
    { unfold Zod.updatePostSchema.
      destruct (Zod.is_object (req_body req)); [|reflexivity].
      rewrite (prop_not_supplied _ _ Ht), (prop_not_supplied _ _ Hc).
      reflexivity. }
    split; [exact F|]. intros W impl w. unfold Posts.update.
    destruct (negb (truthy_str (param req))); [eexists; reflexivity|].
    rewrite F. eexists; reflexivity.
  - destruct (Zod.updatePostSchema (req_body req)) as [d|] eqn:E; [right|left; reflexivity].
    exists d; split; [reflexivity|]. eapply updatePostSchema_success; eauto.
Qed.

Lemma update_post_requires_a_field_witness :
  Zod.updatePostSchema (JObj [("body", JStr "no updatable field")]) = Zod.Failure.
Proof.
  apply (update_post_requires_a_field
           (Sample.request "u1" "p1" (JObj [("body", JStr "no updatable field")]))).
  - intros (f & x & [= <-] & H); discriminate.
  - intros (f & x & [= <-] & H); discriminate.
Defined.

(** ** Login *)

(** C5, as the code has it.  For a payload that passes [SigninSchem] the
    handler looks the user up by username when [username] is present,
    otherwise by email when [email] is present, and not at all when both
    are absent (the answer is then 404): at most one lookup, username
    first. *)
Theorem login_lookup_follows_payload :
  forall (W : Type) (impl : World W) (w : W) (secret : string)
         (req : Request) (d : Zod.SigninData),
    Zod.SigninSchem (req_body req) = Zod.Success d ->
    lookups (trace (run impl (route secret Login req) w)) = lookup_of d /\
    length (lookups (trace (run impl (route secret Login req) w))) <= 1 /\
    (Zod.si_username d = None -> Zod.si_email d = None ->
     run impl (route secret Login req) w
     = (Done (json 404 (Message "Not Authorized")), w, [])).
Proof.
  intros W impl w secret req d H.
  assert (L : lookups (trace (run impl (route secret Login req) w)) = lookup_of d).
  { change (route secret Login req) with (login secret req).
    unfold login, lookup_of. rewrite H.
    destruct (SigninSchem_success _ _ H) as (Hu & He & _).
    rewrite Hu, He.
    destruct (Zod.si_username d) as [u|]; [|destruct (Zod.si_email d) as [e|]];
      run_cases; reflexivity. }
  split; [exact L|]. split.
  - rewrite L. unfold lookup_of.
    destruct (Zod.si_username d); [simpl; lia|].
    destruct (Zod.si_email d); simpl; lia.
  - intros Hu He.
    change (route secret Login req) with (login secret req).
    unfold login. rewrite H, Hu, He. reflexivity.
Qed.

Lemma login_lookup_follows_payload_witness :
  lookups (trace (run (Mem.world Sample.creds)
                      (route Sample.secret Login
                         (Sample.anonymous ""
                            (JObj [("username", JStr "alice");
                                   ("email", JStr "bob@example.com");
                                   ("password", JStr "correct-horse")])))
                      Sample.db))
  = [ByUsername "alice"].
Proof.
  apply (login_lookup_follows_payload _ (Mem.world Sample.creds) Sample.db
           Sample.secret _
           {| Zod.si_username := Some "alice";
              Zod.si_email := Some "bob@example.com";
              Zod.si_password := "correct-horse" |}).
  reflexivity.
Defined.

(** C5 as stated fails: a payload with only a password passes
    [SigninSchem], and then no lookup path is taken at all. *)
Lemma login_without_identifier_looks_nothing_up :
  let req := Sample.anonymous "" (JObj [("password", JStr "correct-horse")]) in
  Zod.success (Zod.SigninSchem (req_body req)) = true /\
  trace (run (Mem.world Sample.creds) (route Sample.secret Login req) Sample.db) = [] /\
  length (lookups (trace (run (Mem.world Sample.creds)
                              (route Sample.secret Login req) Sample.db))) <> 1 /\
  outcome (run (Mem.world Sample.creds) (route Sample.secret Login req) Sample.db)
  = Done (json 404 (Message "Not Authorized")).
Proof. repeat split; discriminate. Qed.

(** C4, as the code has it.  For a payload that passes [SigninSchem]
    (username of 3 to 20 characters, password of 8 to 30) and names a stored
    user: when [bcrypt.compare] accepts the password the answer is 200 with
    the token that [jwt.sign] issued for the user's id; when it refuses, 401;
    and when no user has that username, 404. *)
Theorem login_outcomes :
  forall (cs : Mem.Credentials) (secret : string) (db : Mem.Db)
         (req : Request) (d : Zod.SigninData) (name : string),
    Zod.SigninSchem (req_body req) = Zod.Success d ->
    Zod.si_username d = Some name ->
    let r := run (Mem.world cs) (route secret Login req) db in
    (forall u tok,
        Mem.find_user (ByUsername name) db = Some u ->
        Mem.compare cs (Zod.si_password d) (u_password u) = Returns true ->
        Mem.sign cs (u_id u) secret (Some "1h") = Returns tok ->
        outcome r = Done (json 200 (MessageToken "Login successful" tok)))
    /\ (forall u,
        Mem.find_user (ByUsername name) db = Some u ->
        Mem.compare cs (Zod.si_password d) (u_password u) = Returns false ->
        outcome r = Done (json 401 (Message "Not correct password")))
    /\ (Mem.find_user (ByUsername name) db = None ->
        outcome r = Done (json 404 (Message "Not Authorized")))
    /\ final r = db.
Proof.
  intros cs secret db req d name H Hn r. subst r.
  change (route secret Login req) with (login secret req).
  unfold login. rewrite H.
  destruct (SigninSchem_success _ _ H) as (Hu & _). rewrite Hu, Hn. cbn.
  repeat split.
  - intros u tok Hf Hc Hs. unfold Mem.find_user in Hf. rewrite Hf; cbn.
    rewrite Hc; cbn. rewrite Hs; reflexivity.
  - intros u Hf Hc. unfold Mem.find_user in Hf. rewrite Hf; cbn.
    rewrite Hc; reflexivity.
  - intros Hf. unfold Mem.find_user in Hf. rewrite Hf; reflexivity.
  - destruct (find _ (Mem.users db)) as [u|]; cbn; [|reflexivity].
    destruct (Mem.compare cs _ _) as [[|]|]; cbn; try reflexivity.
    destruct (Mem.sign cs _ _ _); reflexivity.
Qed.

Lemma login_outcomes_witness :
  outcome (run (Mem.world Sample.creds)
               (route Sample.secret Login
                  (Sample.anonymous ""
                     (JObj [("username", JStr "alice");
                            ("password", JStr "correct-horse")])))
               Sample.db)
  = Done (json 200 (MessageToken "Login successful" "s3cr3t.u1")).
Proof.
  apply (proj1 (login_outcomes Sample.creds Sample.secret Sample.db
                  (Sample.anonymous ""
                     (JObj [("username", JStr "alice");
                            ("password", JStr "correct-horse")]))
                  {| Zod.si_username := Some "alice"; Zod.si_email := None;
                     Zod.si_password := "correct-horse" |} "alice"
                  eq_refl eq_refl) Sample.alice "s3cr3t.u1");
    reflexivity.
Defined.

(** C4 as stated fails on the scenario's own request: alice is stored and
    "wrong" is not her password, but a 5-character password does not pass
    [SigninSchem], so the answer is 422 and the store is not consulted. *)
Lemma login_short_wrong_password_is_422 :
  let req := Sample.anonymous ""
               (JObj [("username", JStr "alice"); ("password", JStr "wrong")]) in
  Mem.find_user (ByUsername "alice") Sample.db = Some Sample.alice /\
  Mem.compare Sample.creds "wrong" (u_password Sample.alice) = Returns false /\
  run (Mem.world Sample.creds) (route Sample.secret Login req) Sample.db
  = (Done (json 422 (Message "Invalid Input")), Sample.db, []) /\
  outcome (run (Mem.world Sample.creds) (route Sample.secret Login req) Sample.db)
  <> Done (json 401 (Message "Not correct password")).
Proof. repeat split; discriminate. Qed.

(** ** The authorization guard *)

(** C2, on the code.  When [jwt.verify] rejects the presented token (it
    throws, for a missing token as for an invalid one) the guard has no
    [catch]: the error leaves the route uncaught, so the guard itself sends
    no 404 "Not Authorized".  The business handler is not entered and no
    other call, in particular no store call, is made. *)
Theorem guard_rejection_is_uncaught :
  forall (W : Type) (impl : World W) (w w' : W) (secret : string)
         (op : Operation) (req : Request) (e : JsError),
    protected op = true ->
    exec impl (JwtVerify (presented req) secret) w = (Throws e, w') ->
    run impl (route secret op req) w
    = (Uncaught e, w', [Ev (JwtVerify (presented req) secret) (Throws e)]).
Proof.
  intros W impl w w' secret op req e Hp Hv.
  unfold route; rewrite Hp. unfold middleware.
  fold (presented req). cbn. rewrite Hv. reflexivity.
Qed.

Lemma guard_rejection_is_uncaught_witness :
  run (Mem.world Sample.creds)
      (route Sample.secret ListPosts (Sample.anonymous "" JUndefined)) Sample.db
  = (Uncaught (Error "jwt must be provided"), Sample.db,
     [Ev (JwtVerify "" Sample.secret) (Throws (Error "jwt must be provided"))]).
Proof.
  apply (guard_rejection_is_uncaught Mem.Db (Mem.world Sample.creds) Sample.db
           Sample.db Sample.secret ListPosts (Sample.anonymous "" JUndefined));
    reflexivity.
Defined.

(** The guard's own 404 is reached only once [jwt.verify] has returned, and
    returned a falsy payload. *)
Lemma guard_404_on_falsy_payload :
  forall (W : Type) (impl : World W) (w w' : W) (secret : string)
         (next : Handler) (req : Request),
    exec impl (JwtVerify (presented req) secret) w = (Returns (DecodedString ""), w') ->
    run impl (middleware secret next req) w
    = (Done (json 404 (Message "Not Authorized")), w',
       [Ev (JwtVerify (presented req) secret) (Returns (DecodedString ""))]).
Proof.
  intros W impl w w' secret next req Hv.
  unfold middleware. fold (presented req). cbn. rewrite Hv. reflexivity.
Qed.

(** ** Errors thrown by the store *)

(** C3, as the code has it.  In every Post and Comment route an error
    thrown by a store call, whatever it is, ends in a 500 response; the
    Register handler answers 409 "User Already exists" for any error thrown
    by its user-create call. *)
Theorem store_errors_by_handler :
  forall (W : Type) (impl : World W) (w : W) (secret : string)
         (op : Operation) (req : Request),
    op <> Login ->
    store_threw (trace (run impl (route secret op req) w)) = true ->
    match op with
    | Register =>
        outcome (run impl (route secret op req) w)
        = Done (json 409 (Message "User Already exists"))
    | _ =>
        exists msg, outcome (run impl (route secret op req) w)
                    = Done (json 500 (Message msg))
    end.
Proof.
  intros W impl w secret op req Hop.
  destruct op; try (exfalso; apply Hop; reflexivity);
    unfold route, protected, handler, middleware;
    unfold register, Posts.create, Posts.list, Posts.get, Posts.update,
           Posts.delete, Comments.create, Comments.list, Comments.listByPost,
           Comments.update, Comments.delete;
    run_cases; intros; try discriminate; try reflexivity;
    try (eexists; reflexivity).
Qed.

Lemma store_errors_by_handler_witness :
  exists msg,
    outcome (run Sample.outage
                 (route Sample.secret DeletePost (Sample.request "u1" "p1" JUndefined))
                 tt)
    = Done (json 500 (Message msg)).
Proof.
  apply (store_errors_by_handler unit Sample.outage tt Sample.secret DeletePost
           (Sample.request "u1" "p1" JUndefined)).
  - discriminate.
  - reflexivity.
Defined.

(** C3 as stated fails for Register: with the database out of reach the
    user-create call throws, and the answer is 409, not 500. *)
Lemma register_store_error_is_409 :
  let req := Sample.anonymous ""
               (JObj [("username", JStr "carol"); ("email", JStr "carol@example.com");
                      ("password", JStr "long-enough")]) in
  store_threw (trace (run Sample.outage (route Sample.secret Register req) tt)) = true /\
  outcome (run Sample.outage (route Sample.secret Register req) tt)
  = Done (json 409 (Message "User Already exists")) /\
  (forall resp,
      outcome (run Sample.outage (route Sample.secret Register req) tt) = Done resp ->
      status resp <> 500).
Proof. repeat split. intros resp [= <-]. discriminate. Qed.

(** Login awaits its lookup outside any [try]: a throwing lookup leaves the
    handler uncaught. *)
Lemma login_store_error_is_uncaught :
  forall (W : Type) (impl : World W) (w : W) (secret : string) (req : Request),
    store_threw (trace (run impl (route secret Login req) w)) = true ->
    exists e, outcome (run impl (route secret Login req) w) = Uncaught e.
Proof.
  intros W impl w secret req.
  change (route secret Login req) with (login secret req). unfold login.
  destruct (Zod.SigninSchem (req_body req)) as [d|]; [|discriminate].
  destruct (if_truthy (Zod.si_username d)); [|destruct (if_truthy (Zod.si_email d))];
    run_cases; intros; try discriminate; eexists; reflexivity.
Qed.

(** ** The store's ordering *)

Section Ordering.

Context {T : Type} (key : T -> Z).

Lemma insert_desc_perm (x : T) (l : list T) :
  Permutation (Mem.insert_desc key x l) (x :: l).
Proof.
  induction l as [|y l IH]; simpl; [reflexivity|].
  destruct (Z.leb (key y) (key x)); [reflexivity|].
  rewrite IH. apply perm_swap.
Qed.

Lemma sort_desc_perm (l : list T) : Permutation (Mem.sort_desc key l) l.
Proof.
  induction l as [|x l IH]; [reflexivity|].
  change (Mem.sort_desc key (x :: l))
    with (Mem.insert_desc key x (Mem.sort_desc key l)).
  rewrite insert_desc_perm. now constructor.
Qed.

Lemma insert_desc_sorted (x : T) (l : list T) :
  descending key l -> descending key (Mem.insert_desc key x l).
Proof.
  unfold descending. induction 1 as [|y l Hl IH Hy]; simpl.
  - repeat constructor.
  - destruct (Z.leb_spec (key y) (key x)) as [Hle|Hgt].
    + constructor; [constructor; assumption|].
      constructor; [assumption|].
      rewrite Forall_forall in *. intros z Hz. specialize (Hy z Hz). lia.
    + constructor; [assumption|].
      rewrite Forall_forall in *. intros z Hz.
      apply (Permutation_in _ (insert_desc_perm x l)) in Hz.
      destruct Hz as [<-|Hz]; [lia | auto].
Qed.

Lemma sort_desc_sorted (l : list T) : descending key (Mem.sort_desc key l).
Proof.
  induction l as [|x l IH]; [constructor|].
  now apply insert_desc_sorted.
Qed.

(** Three rows stored oldest first come back newest first. *)
Lemma sort_desc_three (a b c : T) :
  (key a < key b < key c)%Z -> Mem.sort_desc key [a; b; c] = [c; b; a].
Proof.
  intros H. unfold Mem.sort_desc; simpl.
  destruct (Z.leb_spec (key c) (key b)); [lia|]. simpl.
  destruct (Z.leb_spec (key c) (key a)); [lia|]. simpl.
  destruct (Z.leb_spec (key b) (key a)); [lia|]. reflexivity.
Qed.

End Ordering.

(** ** Rows after a write *)

Lemma find_post_after_delete (id : string) (ps : list Post) :
  find (fun p => String.eqb (p_id p) id)
       (filter (fun q => negb (String.eqb (p_id q) id)) ps) = None.
Proof.
  induction ps as [|q ps IH]; simpl; [reflexivity|].
  destruct (String.eqb (p_id q) id) eqn:E; simpl; [assumption|].
  now rewrite E.
Qed.

Lemma find_comment_after_delete (id : string) (cs : list Comment) :
  find (fun c => String.eqb (c_id c) id)
       (filter (fun q => negb (String.eqb (c_id q) id)) cs) = None.
Proof.
  induction cs as [|q cs IH]; simpl; [reflexivity|].
  destruct (String.eqb (c_id q) id) eqn:E; simpl; [assumption|].
  now rewrite E.
Qed.

Lemma find_post_after_update (id : string) (f : Post -> Post) (ps : list Post) :
  (forall q, p_id (f q) = p_id q) ->
  find (fun p => String.eqb (p_id p) id)
       (map (fun q => if String.eqb (p_id q) id then f q else q) ps)
  = option_map f (find (fun p => String.eqb (p_id p) id) ps).
Proof.
  intros Hf. induction ps as [|q ps IH]; simpl; [reflexivity|].
  destruct (String.eqb (p_id q) id) eqn:E.
  - now rewrite Hf, E.
  - now rewrite E.
Qed.

Lemma find_other_post_after_update (id other : string) (f : Post -> Post)
                                   (ps : list Post) :
  (forall q, p_id (f q) = p_id q) -> other <> id ->
  find (fun p => String.eqb (p_id p) other)
       (map (fun q => if String.eqb (p_id q) id then f q else q) ps)
  = find (fun p => String.eqb (p_id p) other) ps.
Proof.
  intros Hf Hne. induction ps as [|q ps IH]; simpl; [reflexivity|].
  destruct (String.eqb (p_id q) id) eqn:E.
  - rewrite Hf. apply String.eqb_eq in E. rewrite E.
    apply String.eqb_neq in Hne. rewrite String.eqb_sym in Hne.
    now rewrite Hne.
  - now rewrite IH.
Qed.

Lemma strict_neq_same (a : string) : strict_neq a (Some a) = false.
Proof. unfold strict_neq. now rewrite String.eqb_refl. Qed.

Lemma strict_neq_other (a b : string) : a <> b -> strict_neq a (Some b) = true.
Proof. unfold strict_neq. intros H. apply String.eqb_neq in H. now rewrite H. Qed.

Lemma truthy_str_nonempty (s : string) : s <> "" -> truthy_str s = true.
Proof. destruct s; [congruence | reflexivity]. Qed.

(** An authenticated request passes the guard, which leaves one entry in
    the trace and hands the handler the caller's id. *)
Lemma run_authenticated (cs : Mem.Credentials) (secret : string) (db : Mem.Db)
                        (op : Operation) (req : Request) (uid : string) :
  protected op = true ->
  authenticated cs secret req uid ->
  run (Mem.world cs) (route secret op req) db
  = let '(o, db', t) :=
      run (Mem.world cs) (handler secret op (set_userId req (Some uid))) db in
    (o, db', verified secret req uid :: t).
Proof.
  intros Hp Hv. unfold route; rewrite Hp. unfold middleware.
  fold (presented req). cbn. unfold authenticated in Hv. rewrite Hv. reflexivity.
Qed.

(** ** Listing *)

(** C9. For an authenticated caller, List Posts answers 200 with the
    store's posts and List Comments-by-post answers 200 with the comments of
    that post, each newest first by [created_at]; three posts (or three
    comments of the post) created at t1 < t2 < t3 come back in the order
    t3, t2, t1. *)
Theorem lists_are_newest_first :
  forall (cs : Mem.Credentials) (secret : string) (db : Mem.Db)
         (req : Request) (uid : string),
    authenticated cs secret req uid ->
    (exists l,
        outcome (run (Mem.world cs) (route secret ListPosts req) db)
        = Done (json 200 (MessageAllPosts "Got all posts" l)) /\
        descending p_created_at (map pf_post l) /\
        Permutation (map pf_post l) (Mem.posts db))
    /\ (exists l,
        outcome (run (Mem.world cs) (route secret ListCommentsByPost req) db)
        = Done (json 200 (MessageComments "Got comments" l)) /\
        descending c_created_at (map cw_comment l) /\
        Permutation (map cw_comment l) (Mem.comments_of (param req) db))
    /\ (forall p1 p2 p3,
        Mem.posts db = [p1; p2; p3] ->
        (p_created_at p1 < p_created_at p2 < p_created_at p3)%Z ->
        outcome (run (Mem.world cs) (route secret ListPosts req) db)
        = Done (json 200 (MessageAllPosts "Got all posts"
                            (map (Mem.full None db) [p3; p2; p1]))))
    /\ (forall c1 c2 c3,
        Mem.comments_of (param req) db = [c1; c2; c3] ->
        (c_created_at c1 < c_created_at c2 < c_created_at c3)%Z ->
        outcome (run (Mem.world cs) (route secret ListCommentsByPost req) db)
        = Done (json 200 (MessageComments "Got comments"
                            (map (Mem.with_athor db) [c3; c2; c1])))).
Proof.
  intros cs secret db req uid Hv. repeat split.
  - exists (map (Mem.full None db) (Mem.sort_desc p_created_at (Mem.posts db))).
    rewrite (run_authenticated cs secret _ ListPosts req uid eq_refl Hv).
    split; [reflexivity|].
    rewrite map_map, map_id.
    split; [apply sort_desc_sorted | apply sort_desc_perm].
  - exists (map (Mem.with_athor db)
                (Mem.sort_desc c_created_at (Mem.comments_of (param req) db))).
    rewrite (run_authenticated cs secret _ ListCommentsByPost req uid eq_refl Hv).
    split; [reflexivity|].
    rewrite map_map, map_id.
    split; [apply sort_desc_sorted | apply sort_desc_perm].
  - intros p1 p2 p3 Hps Ht.
    rewrite (run_authenticated cs secret _ ListPosts req uid eq_refl Hv).
    unfold handler, Posts.list. cbn.
    rewrite Hps, sort_desc_three by assumption. reflexivity.
  - intros c1 c2 c3 Hcs Ht.
    rewrite (run_authenticated cs secret _ ListCommentsByPost req uid eq_refl Hv).
    unfold handler, Comments.listByPost. cbn.
    rewrite Hcs, sort_desc_three by assumption. reflexivity.
Qed.

Lemma lists_are_newest_first_witness :
  outcome (run (Mem.world Sample.creds)
               (route Sample.secret ListPosts (Sample.request "u2" "" JUndefined))
               Sample.db)
  = Done (json 200 (MessageAllPosts "Got all posts"
                      (map (Mem.full None Sample.db)
                           [Sample.post3; Sample.post2; Sample.post1]))).
Proof.
  apply (proj1 (proj2 (proj2 (lists_are_newest_first Sample.creds Sample.secret
                                Sample.db (Sample.request "u2" "" JUndefined)
                                "u2" eq_refl)))
           Sample.post1 Sample.post2 Sample.post3 eq_refl).
  simpl; lia.
Defined.

(** ** The mutating handlers, run against the store *)

Section Mutations.

Variable cs : Mem.Credentials.
Variable db : Mem.Db.
Variable req : Request.

Lemma run_post_delete :
  run (Mem.world cs) (Posts.delete req) db =
  if negb (truthy_str (param req)) then (Done (json 400 (Message "Post ID is required")), db, [])
  else
    let read := Ev (PostSelectAuthorId (param req))
                   (Returns (option_map p_author_id (Mem.find_post (param req) db))) in
    match Mem.find_post (param req) db with
    | None => (Done (json 404 (Message "Post not found")), db, [read])
    | Some p =>
        if strict_neq (p_author_id p) (userId req)
        then (Done (json 403 (Message "Invalid author")), db, [read])
        else
          let '(r, db') := Mem.post_delete (param req) db in
          (Done match r with
                | Returns _ => send 204
                | Throws _ => json 500 (Message "Server error")
                end, db', [read; Ev (PostDelete (param req)) r])
    end.
Proof.
  unfold Posts.delete.
  destruct (negb (truthy_str (param req))); [reflexivity|]. cbn.
  destruct (Mem.find_post (param req) db) as [p|]; [|reflexivity]. cbn.
  destruct (strict_neq (p_author_id p) (userId req)); [reflexivity|]. cbn.
  destruct (Mem.post_delete (param req) db) as [[x|e] db']; reflexivity.
Qed.

Lemma run_comment_delete :
  run (Mem.world cs) (Comments.delete req) db =
  let read := Ev (CommentSelectAuthorId (param req))
                 (Returns (option_map c_author_id (Mem.find_comment (param req) db))) in
  match Mem.find_comment (param req) db with
  | None => (Done (json 404 (Message "Comment not found")), db, [read])
  | Some c =>
      if strict_neq (c_author_id c) (userId req)
      then (Done (json 403 (Message "Invalid author")), db, [read])
      else
        let '(r, db') := Mem.comment_delete (param req) db in
        (Done match r with
              | Returns _ => send 204
              | Throws _ => json 500 (Message "Unable to delete comment")
              end, db', [read; Ev (CommentDelete (param req)) r])
  end.
Proof.
  unfold Comments.delete. cbn.
  destruct (Mem.find_comment (param req) db) as [c|]; [|reflexivity]. cbn.
  destruct (strict_neq (c_author_id c) (userId req)); [reflexivity|]. cbn.
  destruct (Mem.comment_delete (param req) db) as [[x|e] db']; reflexivity.
Qed.

Lemma run_post_update :
  run (Mem.world cs) (Posts.update req) db =
  if negb (truthy_str (param req)) then (Done (json 400 (Message "Post ID is required")), db, [])
  else
    match Zod.updatePostSchema (req_body req) with
    | Zod.Failure => (Done (json 400 (Message "Incorrect input")), db, [])
    | Zod.Success data =>
        let read := Ev (PostSelectAuthorId (param req))
                       (Returns (option_map p_author_id (Mem.find_post (param req) db))) in
        match Mem.find_post (param req) db with
        | None => (Done (json 404 (Message "Post not found")), db, [read])
        | Some p =>
            if strict_neq (p_author_id p) (userId req)
            then (Done (json 403 (Message "Invalid author")), db, [read])
            else
              let '(r, db') := Mem.post_update (param req) (Posts.updateData data) db in
              (Done match r with
                    | Returns x => json 200 (MessageUpdatedPost "Post updated" x)
                    | Throws _ => json 500 (Message "Server error")
                    end, db', [read; Ev (PostUpdate (param req) (Posts.updateData data)) r])
        end
    end.
Proof.
  unfold Posts.update.
  destruct (negb (truthy_str (param req))); [reflexivity|].
  destruct (Zod.updatePostSchema (req_body req)) as [data|]; [|reflexivity]. cbn.
  destruct (Mem.find_post (param req) db) as [p|]; [|reflexivity]. cbn.
  destruct (strict_neq (p_author_id p) (userId req)); [reflexivity|]. cbn.
  destruct (Mem.post_update (param req) _ db) as [[x|e] db']; reflexivity.
Qed.

Lemma run_comment_update :
  run (Mem.world cs) (Comments.update req) db =
  match Zod.CommentSchema (req_body req) with
  | Zod.Failure => (Done (json 400 (Message "Invalid input")), db, [])
  | Zod.Success data =>
      let read := Ev (CommentSelectAuthorId (param req))
                     (Returns (option_map c_author_id (Mem.find_comment (param req) db))) in
      match Mem.find_comment (param req) db with
      | None => (Done (json 404 (Message "Comment not found")), db, [read])
      | Some c =>
          if strict_neq (c_author_id c) (userId req)
          then (Done (json 403 (Message "Invalid author")), db, [read])
          else
            let '(r, db') := Mem.comment_update (param req) (Zod.cm_content data) db in
            (Done match r with
                  | Returns x => json 200 (MessageComment "Comment updated" x)
                  | Throws _ => json 500 (Message "Unable to update comment")
                  end, db', [read; Ev (CommentUpdate (param req) (Zod.cm_content data)) r])
      end
  end.
Proof.
  unfold Comments.update.
  destruct (Zod.CommentSchema (req_body req)) as [data|]; [|reflexivity]. cbn.
  destruct (Mem.find_comment (param req) db) as [c|]; [|reflexivity]. cbn.
  destruct (strict_neq (c_author_id c) (userId req)); [reflexivity|]. cbn.
  destruct (Mem.comment_update (param req) _ db) as [[x|e] db']; reflexivity.
Qed.

End Mutations.

Lemma param_set_userId (req : Request) (u : option string) :
  param (set_userId req u) = param req.
Proof. reflexivity. Qed.

(** What a Delete that answered 204 leaves behind. *)
Lemma post_gone_after_204 (cs : Mem.Credentials) (db : Mem.Db) (req : Request) :
  outcome (run (Mem.world cs) (Posts.delete req) db) = Done (send 204) ->
  param req <> "" /\
  Mem.find_post (param req) (final (run (Mem.world cs) (Posts.delete req) db)) = None.
Proof.
  rewrite run_post_delete.
  destruct (param req) as [|a s] eqn:Eid; [discriminate|]. cbn [negb truthy_str].
  change (negb (truthy_str (String a s))) with false. cbv iota.
  destruct (Mem.find_post (String a s) db) as [p|] eqn:Ef; [|discriminate]. cbn zeta.
  destruct (strict_neq (p_author_id p) (userId req)); [discriminate|].
  unfold Mem.post_delete. rewrite Ef.
  destruct (existsb _ (Mem.comments db)); [discriminate|].
  intros _. split; [discriminate|]. apply find_post_after_delete.
Qed.

Lemma comment_gone_after_204 (cs : Mem.Credentials) (db : Mem.Db) (req : Request) :
  outcome (run (Mem.world cs) (Comments.delete req) db) = Done (send 204) ->
  Mem.find_comment (param req)
    (final (run (Mem.world cs) (Comments.delete req) db)) = None.
Proof.
  rewrite run_comment_delete. cbn zeta.
  destruct (Mem.find_comment (param req) db) as [c|] eqn:Ef; [|discriminate].
  destruct (strict_neq (c_author_id c) (userId req)); [discriminate|].
  unfold Mem.comment_delete. rewrite Ef.
  intros _. apply find_comment_after_delete.
Qed.

(** ** Deleting what is not there *)

(** C8. For an authenticated caller, Delete on a post id (a route parameter,
    hence non-empty) or a comment id that the store does not hold answers
    404 after the one existence read and leaves the store as it was; and
    once a Delete has answered 204, the same Delete answers 404. *)
Theorem delete_absent_is_not_found :
  forall (cs : Mem.Credentials) (secret : string) (db : Mem.Db)
         (req : Request) (uid : string),
    authenticated cs secret req uid ->
    let id := param req in
    let world := Mem.world cs in
    (id <> "" -> Mem.find_post id db = None ->
     run world (route secret DeletePost req) db
     = (Done (json 404 (Message "Post not found")), db,
        [verified secret req uid; Ev (PostSelectAuthorId id) (Returns None)]))
    /\ (Mem.find_comment id db = None ->
        run world (route secret DeleteComment req) db
        = (Done (json 404 (Message "Comment not found")), db,
           [verified secret req uid; Ev (CommentSelectAuthorId id) (Returns None)]))
    /\ (outcome (run world (route secret DeletePost req) db) = Done (send 204) ->
        let db' := final (run world (route secret DeletePost req) db) in
        run world (route secret DeletePost req) db'
        = (Done (json 404 (Message "Post not found")), db',
           [verified secret req uid; Ev (PostSelectAuthorId id) (Returns None)]))
    /\ (outcome (run world (route secret DeleteComment req) db) = Done (send 204) ->
        let db' := final (run world (route secret DeleteComment req) db) in
        run world (route secret DeleteComment req) db'
        = (Done (json 404 (Message "Comment not found")), db',
           [verified secret req uid; Ev (CommentSelectAuthorId id) (Returns None)])).
Proof.
  intros cs secret db req uid Hv id world.
  assert (P : forall d, id <> "" -> Mem.find_post id d = None ->
     run world (route secret DeletePost req) d
     = (Done (json 404 (Message "Post not found")), d,
        [verified secret req uid; Ev (PostSelectAuthorId id) (Returns None)])).
  { intros d Hid Hf. unfold world.
    rewrite (run_authenticated cs secret _ DeletePost req uid eq_refl Hv).
    unfold handler. rewrite run_post_delete, param_set_userId. fold id.
    rewrite (truthy_str_nonempty _ Hid), Hf. reflexivity. }
  assert (C : forall d, Mem.find_comment id d = None ->
     run world (route secret DeleteComment req) d
     = (Done (json 404 (Message "Comment not found")), d,
        [verified secret req uid; Ev (CommentSelectAuthorId id) (Returns None)])).
  { intros d Hf. unfold world.
    rewrite (run_authenticated cs secret _ DeleteComment req uid eq_refl Hv).
    unfold handler. rewrite run_comment_delete, param_set_userId. fold id.
    rewrite Hf. reflexivity. }
  split; [apply P|]. split; [apply C|]. split.
  - intros H db'. subst db'. revert H. unfold world.
    rewrite (run_authenticated cs secret _ DeletePost req uid eq_refl Hv).
    unfold handler.
    destruct (run (Mem.world cs) (Posts.delete (set_userId req (Some uid))) db)
      as [[o d] t] eqn:E.
    intros H.
    destruct (post_gone_after_204 cs db (set_userId req (Some uid))) as [Hid Hf].
    { rewrite E. exact H. }
    rewrite E in Hf. apply (P d Hid Hf).
  - intros H db'. subst db'. revert H. unfold world.
    rewrite (run_authenticated cs secret _ DeleteComment req uid eq_refl Hv).
    unfold handler.
    destruct (run (Mem.world cs) (Comments.delete (set_userId req (Some uid))) db)
      as [[o d] t] eqn:E.
    intros H.
    pose proof (comment_gone_after_204 cs db (set_userId req (Some uid))) as Hf.
    rewrite E in Hf. apply (C d (Hf H)).
Qed.

Lemma delete_absent_is_not_found_witness :
  run (Mem.world Sample.creds)
      (route Sample.secret DeletePost (Sample.request "u1" "p9" JUndefined))
      Sample.db
  = (Done (json 404 (Message "Post not found")), Sample.db,
     [verified Sample.secret (Sample.request "u1" "p9" JUndefined) "u1";
      Ev (PostSelectAuthorId "p9") (Returns None)]).
Proof.
  apply (proj1 (delete_absent_is_not_found Sample.creds Sample.secret Sample.db
                  (Sample.request "u1" "p9" JUndefined) "u1" eq_refl)).
  - discriminate.
  - reflexivity.
Defined.

(** ** Ownership *)

(** C1, as the code has it.  For an authenticated caller and an existing
    target, once the request is past the checks that precede the ownership
    check (a non-empty post id; for the updates, a payload that passes
    validation): a caller other than the author is answered 403 after the
    one ownership read, with the store as it was; for the author the
    mutation is issued to the store. *)
Theorem mutation_requires_author :
  forall (cs : Mem.Credentials) (secret : string) (db : Mem.Db)
         (req : Request) (uid : string),
    authenticated cs secret req uid ->
    let id := param req in
    let world := Mem.world cs in
    let guard := verified secret req uid in
    let forbidden := Done (json 403 (Message "Invalid author")) in
    (forall p data,
        id <> "" ->
        Zod.updatePostSchema (req_body req) = Zod.Success data ->
        Mem.find_post id db = Some p ->
        let r := run world (route secret UpdatePost req) db in
        let write := Mem.post_update id (Posts.updateData data) db in
        (p_author_id p <> uid ->
         r = (forbidden, db,
              [guard; Ev (PostSelectAuthorId id) (Returns (Some (p_author_id p)))]))
        /\ (p_author_id p = uid ->
            trace r = [guard; Ev (PostSelectAuthorId id) (Returns (Some uid));
                       Ev (PostUpdate id (Posts.updateData data)) (fst write)]
            /\ final r = snd write))
    /\ (forall p,
        id <> "" ->
        Mem.find_post id db = Some p ->
        let r := run world (route secret DeletePost req) db in
        let write := Mem.post_delete id db in
        (p_author_id p <> uid ->
         r = (forbidden, db,
              [guard; Ev (PostSelectAuthorId id) (Returns (Some (p_author_id p)))]))
        /\ (p_author_id p = uid ->
            trace r = [guard; Ev (PostSelectAuthorId id) (Returns (Some uid));
                       Ev (PostDelete id) (fst write)]
            /\ final r = snd write))
    /\ (forall c data,
        Zod.CommentSchema (req_body req) = Zod.Success data ->
        Mem.find_comment id db = Some c ->
        let r := run world (route secret UpdateComment req) db in
        let write := Mem.comment_update id (Zod.cm_content data) db in
        (c_author_id c <> uid ->
         r = (forbidden, db,
              [guard; Ev (CommentSelectAuthorId id) (Returns (Some (c_author_id c)))]))
        /\ (c_author_id c = uid ->
            trace r = [guard; Ev (CommentSelectAuthorId id) (Returns (Some uid));
                       Ev (CommentUpdate id (Zod.cm_content data)) (fst write)]
            /\ final r = snd write))
    /\ (forall c,
        Mem.find_comment id db = Some c ->
        let r := run world (route secret DeleteComment req) db in
        let write := Mem.comment_delete id db in
        (c_author_id c <> uid ->
         r = (forbidden, db,
              [guard; Ev (CommentSelectAuthorId id) (Returns (Some (c_author_id c)))]))
        /\ (c_author_id c = uid ->
            trace r = [guard; Ev (CommentSelectAuthorId id) (Returns (Some uid));
                       Ev (CommentDelete id) (fst write)]
            /\ final r = snd write)).
Proof.
  intros cs secret db req uid Hv id world guard forbidden.
  repeat apply conj.
  - intros p data Hid Hd Hf r write. subst r write world.
    rewrite (run_authenticated cs secret _ UpdatePost req uid eq_refl Hv).
    unfold handler. rewrite run_post_update, param_set_userId. fold id.
    rewrite (truthy_str_nonempty _ Hid).
    change (req_body (set_userId req (Some uid))) with (req_body req).
    rewrite Hd, Hf.
    change (userId (set_userId req (Some uid))) with (Some uid).
    split; intros Ha.
    + rewrite (strict_neq_other _ _ Ha). reflexivity.
    + subst uid. rewrite strict_neq_same. cbn.
      destruct (Mem.post_update id (Posts.updateData data) db); split; reflexivity.
  - intros p Hid Hf r write. subst r write world.
    rewrite (run_authenticated cs secret _ DeletePost req uid eq_refl Hv).
    unfold handler. rewrite run_post_delete, param_set_userId. fold id.
    rewrite (truthy_str_nonempty _ Hid), Hf.
    change (userId (set_userId req (Some uid))) with (Some uid).
    split; intros Ha.
    + rewrite (strict_neq_other _ _ Ha). reflexivity.
    + subst uid. rewrite strict_neq_same. cbn.
      destruct (Mem.post_delete id db); split; reflexivity.
  - intros c data Hd Hf r write. subst r write world.
    rewrite (run_authenticated cs secret _ UpdateComment req uid eq_refl Hv).
    unfold handler. rewrite run_comment_update, param_set_userId. fold id.
    change (req_body (set_userId req (Some uid))) with (req_body req).
    rewrite Hd, Hf.
    change (userId (set_userId req (Some uid))) with (Some uid).
    split; intros Ha.
    + rewrite (strict_neq_other _ _ Ha). reflexivity.
    + subst uid. rewrite strict_neq_same. cbn.
      destruct (Mem.comment_update id (Zod.cm_content data) db); split; reflexivity.
  - intros c Hf r write. subst r write world.
    rewrite (run_authenticated cs secret _ DeleteComment req uid eq_refl Hv).
    unfold handler. rewrite run_comment_delete, param_set_userId. fold id.
    rewrite Hf.
    change (userId (set_userId req (Some uid))) with (Some uid).
    split; intros Ha.
    + rewrite (strict_neq_other _ _ Ha). reflexivity.
    + subst uid. rewrite strict_neq_same. cbn.
      destruct (Mem.comment_delete id db); split; reflexivity.
Qed.

Lemma mutation_requires_author_witness :
  run (Mem.world Sample.creds)
      (route Sample.secret UpdatePost
         (Sample.request "u2" "p1" (JObj [("title", JStr "Hijacked")])))
      Sample.db
  = (Done (json 403 (Message "Invalid author")), Sample.db,
     [verified Sample.secret
        (Sample.request "u2" "p1" (JObj [("title", JStr "Hijacked")])) "u2";
      Ev (PostSelectAuthorId "p1") (Returns (Some "u1"))]).
Proof.
  apply (proj1 (proj1 (mutation_requires_author Sample.creds Sample.secret Sample.db
                         (Sample.request "u2" "p1" (JObj [("title", JStr "Hijacked")]))
                         "u2" eq_refl)
                  Sample.post1
                  {| Zod.up_title := Some "Hijacked"; Zod.up_content := None |}
                  ltac:(discriminate) eq_refl eq_refl)).
  discriminate.
Defined.

(** C1 as stated fails for the updates: validation comes before the
    ownership check, so a caller who is not the author and sends a payload
    with no updatable field is answered 400, not 403 (the store is untouched
    all the same). *)
Lemma update_by_stranger_with_empty_payload_is_400 :
  let req := Sample.request "u2" "p1" (JObj []) in
  authenticated Sample.creds Sample.secret req "u2" /\
  Mem.find_post "p1" Sample.db = Some Sample.post1 /\
  p_author_id Sample.post1 <> "u2" /\
  run (Mem.world Sample.creds) (route Sample.secret UpdatePost req) Sample.db
  = (Done (json 400 (Message "Incorrect input")), Sample.db,
     [verified Sample.secret req "u2"]) /\
  outcome (run (Mem.world Sample.creds) (route Sample.secret UpdatePost req) Sample.db)
  <> Done (json 403 (Message "Invalid author")).
Proof. repeat split; discriminate. Qed.

(** ** What an update writes *)

(** A guarded route: the guard's three exits. *)
Lemma run_guarded (cs : Mem.Credentials) (secret : string) (db : Mem.Db)
                  (op : Operation) (req : Request) :
  protected op = true ->
  run (Mem.world cs) (route secret op req) db
  = match Mem.verify cs (presented req) secret with
    | Returns d =>
        let seen := Ev (JwtVerify (presented req) secret) (Returns d) in
        if truthy_decoded d then
          let '(o, db', t) :=
            run (Mem.world cs)
                (handler secret op (set_userId req (decoded_userId d))) db in
          (o, db', seen :: t)
        else (Done (json 404 (Message "Not Authorized")), db, [seen])
    | Throws e =>
        (Uncaught e, db, [Ev (JwtVerify (presented req) secret) (Throws e)])
    end.
Proof.
  intros Hp. unfold route; rewrite Hp. unfold middleware.
  fold (presented req). cbn.
  destruct (Mem.verify cs (presented req) secret) as [d|e]; cbn; [|reflexivity].
  destruct (truthy_decoded d); reflexivity.
Qed.

(** C10, as the code has it.  When Update Post answers 200, the payload
    had parsed to [data] with at least one field, the post existed, and
    afterwards the post under that id has the same [id], [author_id] and
    [created_at]; its [title] and [content] are those of [data] where
    supplied and the prior ones where not; and its [updated_at], which the
    handler never supplies, is the store's time of the update.  Users,
    comments and posts under other ids are as they were. *)
Theorem update_post_writes_supplied_fields_only :
  forall (cs : Mem.Credentials) (secret : string) (db : Mem.Db)
         (req : Request) (resp : Response),
    outcome (run (Mem.world cs) (route secret UpdatePost req) db) = Done resp ->
    status resp = 200 ->
    let db' := final (run (Mem.world cs) (route secret UpdatePost req) db) in
    exists (p p' : Post) (data : Zod.PostPatch),
      Zod.updatePostSchema (req_body req) = Zod.Success data /\
      (Zod.up_title data <> None \/ Zod.up_content data <> None) /\
      Mem.find_post (param req) db = Some p /\
      Mem.find_post (param req) db' = Some p' /\
      p_id p' = p_id p /\
      p_author_id p' = p_author_id p /\
      p_created_at p' = p_created_at p /\
      p_title p' = match Zod.up_title data with Some t => t | None => p_title p end /\
      p_content p'
      = match Zod.up_content data with Some c => c | None => p_content p end /\
      p_updated_at p' = Mem.now db /\
      Mem.users db' = Mem.users db /\
      Mem.comments db' = Mem.comments db /\
      (forall other, other <> param req ->
                     Mem.find_post other db' = Mem.find_post other db).
Proof.
  intros cs secret db req resp Ho Hs db'. subst db'. revert Ho.
  rewrite (run_guarded cs secret db UpdatePost req eq_refl).
  destruct (Mem.verify cs (presented req) secret) as [d|e]; [|discriminate].
  cbn zeta.
  destruct (truthy_decoded d);
    [|intros [= <-]; discriminate].
  unfold handler. rewrite run_post_update, param_set_userId.
  change (req_body (set_userId req (decoded_userId d))) with (req_body req).
  destruct (negb (truthy_str (param req)));
    [intros [= <-]; discriminate|].
  destruct (Zod.updatePostSchema (req_body req)) as [data|] eqn:Ed;
    [|intros [= <-]; discriminate].
  cbn zeta.
  destruct (Mem.find_post (param req) db) as [p|] eqn:Ef;
    [|intros [= <-]; discriminate].
  destruct (strict_neq (p_author_id p) _);
    [intros [= <-]; discriminate|].
  unfold Mem.post_update. rewrite Ef. intros _.
  exists p, (Mem.patch (Posts.updateData data) (Mem.now db) p), data.
  split; [reflexivity|].
  split; [eapply updatePostSchema_success; eassumption|].
  split; [reflexivity|].
  split.
  { unfold Mem.find_post in *. cbn [final fst snd Mem.posts Mem.tick].
    rewrite find_post_after_update by reflexivity. now rewrite Ef. }
  repeat (split; [reflexivity|]).
  intros other Hne. unfold Mem.find_post. cbn [final fst snd Mem.posts Mem.tick].
  now apply find_other_post_after_update.
Qed.

Lemma update_post_writes_supplied_fields_only_witness :
  exists (p p' : Post) (data : Zod.PostPatch),
    Zod.updatePostSchema (JObj [("title", JStr "Renamed")]) = Zod.Success data /\
    (Zod.up_title data <> None \/ Zod.up_content data <> None) /\
    Mem.find_post "p1" Sample.db = Some p /\
    Mem.find_post "p1"
      (final (run (Mem.world Sample.creds)
                  (route Sample.secret UpdatePost
                     (Sample.request "u1" "p1" (JObj [("title", JStr "Renamed")])))
                  Sample.db)) = Some p' /\
    p_id p' = p_id p /\
    p_author_id p' = p_author_id p /\
    p_created_at p' = p_created_at p /\
    p_title p' = match Zod.up_title data with Some t => t | None => p_title p end /\
    p_content p'
    = match Zod.up_content data with Some c => c | None => p_content p end /\
    p_updated_at p' = Mem.now Sample.db /\
    Mem.users
      (final (run (Mem.world Sample.creds)
                  (route Sample.secret UpdatePost
                     (Sample.request "u1" "p1" (JObj [("title", JStr "Renamed")])))
                  Sample.db)) = Mem.users Sample.db /\
    Mem.comments
      (final (run (Mem.world Sample.creds)
                  (route Sample.secret UpdatePost
                     (Sample.request "u1" "p1" (JObj [("title", JStr "Renamed")])))
                  Sample.db)) = Mem.comments Sample.db /\
    (forall other, other <> "p1" ->
       Mem.find_post other
         (final (run (Mem.world Sample.creds)
                     (route Sample.secret UpdatePost
                        (Sample.request "u1" "p1" (JObj [("title", JStr "Renamed")])))
                     Sample.db)) = Mem.find_post other Sample.db).
Proof.
  apply (update_post_writes_supplied_fields_only Sample.creds Sample.secret Sample.db
           (Sample.request "u1" "p1" (JObj [("title", JStr "Renamed")]))
           (json 200 (MessageUpdatedPost "Post updated"
              (Mem.with_author Sample.db
                 (Mem.patch {| set_title := Some "Renamed"; set_content := None |}
                            100%Z Sample.post1)))));
    reflexivity.
Defined.

(** C10 as stated fails on [updated_at]: a title-only update by the author
    answers 200 and keeps [content], but the post's [updated_at], a field
    the payload does not supply, no longer has its prior value. *)
Lemma update_post_rewrites_updated_at :
  let req := Sample.request "u1" "p1" (JObj [("title", JStr "Renamed")]) in
  let r := run (Mem.world Sample.creds) (route Sample.secret UpdatePost req)
               Sample.db in
  ~ supplies (req_body req) "updated_at" /\
  (exists resp, outcome r = Done resp /\ status resp = 200) /\
  Mem.find_post "p1" Sample.db = Some Sample.post1 /\
  exists p',
    Mem.find_post "p1" (final r) = Some p' /\
    p_content p' = p_content Sample.post1 /\
    p_updated_at Sample.post1 = 10%Z /\
    p_updated_at p' = 100%Z /\
    p_updated_at p' <> p_updated_at Sample.post1.
Proof.
  cbv zeta. split.
  - intros (f & x & [= <-] & H). discriminate.
  - split; [eexists; split; reflexivity|].
    split; [reflexivity|].
    eexists. split; [reflexivity|]. repeat split. discriminate.
Qed.

(** * Further properties of the handlers *)

(** ** What every handler answers *)

Lemma strict_neq_false (a : string) (o : option string) :
  strict_neq a o = false -> o = Some a.
Proof.
  unfold strict_neq. destruct o as [s|]; [|discriminate].
  intros H. apply negb_false_iff, String.eqb_eq in H. now subst.
Qed.

Ltac pick_status := simpl; repeat first [left; reflexivity | right].

(** The two optional identifiers of a login payload, when the goal runs
    [login]. *)
Ltac login_cases req :=
  try match goal with
      | |- context [Zod.SigninSchem (req_body req)] =>
          let data := fresh "data" in
          destruct (Zod.SigninSchem (req_body req)) as [data|];
          [destruct (if_truthy (Zod.si_username data));
           [|destruct (if_truthy (Zod.si_email data))]|]
      end.

(** X1. Against any implementation of the awaited calls, a business handler
    that sends a response sends one of the statuses listed for its
    operation, and every handler but Login always sends a response: no
    error thrown by a call leaves it uncaught. *)
Theorem handlers_answer_listed_statuses :
  forall (W : Type) (impl : World W) (w : W) (secret : string)
         (op : Operation) (req : Request),
    (forall resp,
        outcome (run impl (handler secret op req) w) = Done resp ->
        In (status resp) (statuses op))
    /\ (op <> Login ->
        exists resp, outcome (run impl (handler secret op req) w) = Done resp).
Proof.
  intros W impl w secret op req. split.
  - destruct op; unfold handler;
      unfold register, login, Posts.create, Posts.list, Posts.get, Posts.update,
             Posts.delete, Comments.create, Comments.list, Comments.listByPost,
             Comments.update, Comments.delete;
      login_cases req; run_cases; intros resp H; try discriminate;
      injection H as <-; pick_status.
  - intros Hop.
    destruct op; try (exfalso; apply Hop; reflexivity); unfold handler;
      unfold register, Posts.create, Posts.list, Posts.get, Posts.update,
             Posts.delete, Comments.create, Comments.list, Comments.listByPost,
             Comments.update, Comments.delete;
      run_cases; eexists; reflexivity.
Qed.

Lemma handlers_answer_listed_statuses_witness :
  In (status (json 404 (Message "Post not found"))) (statuses GetPost).
Proof.
  apply (proj1 (handlers_answer_listed_statuses Mem.Db (Mem.world Sample.creds)
                  Sample.db Sample.secret GetPost
                  (Sample.request "u1" "p9" JUndefined))).
  reflexivity.
Defined.

(** ** Who may write *)

(** X2. Against any implementation of the awaited calls, a route whose
    trace holds an update or delete call is one of the four mutating routes,
    and its trace is exactly: the guard's [jwt.verify], which returned a
    payload with some [userId]; the ownership read of the route's id on the
    table of that route, which returned exactly that id as [author_id]; and
    the one update or delete, on the same id and table (for the updates,
    with the fields of the validated payload). *)
Theorem mutation_only_by_owner :
  forall (W : Type) (impl : World W) (w : W) (secret : string)
         (op : Operation) (req : Request),
    existsb ev_mutation (trace (run impl (route secret op req) w)) = true ->
    exists (d : Decoded) (uid : string),
      decoded_userId d = Some uid /\
      let id := param req in
      let t := trace (run impl (route secret op req) w) in
      let guard := Ev (JwtVerify (presented req) secret) (Returns d) in
      let post_read := Ev (PostSelectAuthorId id) (Returns (Some uid)) in
      let comment_read := Ev (CommentSelectAuthorId id) (Returns (Some uid)) in
      (exists data r,
          op = UpdatePost /\
          Zod.updatePostSchema (req_body req) = Zod.Success data /\
          t = [guard; post_read; Ev (PostUpdate id (Posts.updateData data)) r])
      \/ (exists r,
          op = DeletePost /\
          t = [guard; post_read; Ev (PostDelete id) r])
      \/ (exists data r,
          op = UpdateComment /\
          Zod.CommentSchema (req_body req) = Zod.Success data /\
          t = [guard; comment_read; Ev (CommentUpdate id (Zod.cm_content data)) r])
      \/ (exists r,
          op = DeleteComment /\
          t = [guard; comment_read; Ev (CommentDelete id) r]).
Proof.
  intros W impl w secret op req.
  destruct op; unfold route, protected, handler, middleware, presented;
    unfold register, login, Posts.create, Posts.list, Posts.get, Posts.update,
           Posts.delete, Comments.create, Comments.list, Comments.listByPost,
           Comments.update, Comments.delete;
    login_cases req; run_cases; intros H; try discriminate;
    match goal with
    | S : strict_neq ?a (decoded_userId ?d) = false |- _ =>
        apply strict_neq_false in S; exists d, a
    end;
    (split; [assumption|]);
    first [ left; do 2 eexists; repeat split; reflexivity
          | right; left; eexists; repeat split; reflexivity
          | right; right; left; do 2 eexists; repeat split; reflexivity
          | right; right; right; eexists; repeat split; reflexivity ].
Qed.

Lemma mutation_only_by_owner_witness :
  exists (d : Decoded) (uid : string),
    decoded_userId d = Some uid /\
    let id := param (Sample.request "u1" "p3" JUndefined) in
    let t := trace (run (Mem.world Sample.creds)
                        (route Sample.secret DeletePost
                           (Sample.request "u1" "p3" JUndefined))
                        Sample.db) in
    let guard := Ev (JwtVerify (presented (Sample.request "u1" "p3" JUndefined))
                               Sample.secret) (Returns d) in
    let post_read := Ev (PostSelectAuthorId id) (Returns (Some uid)) in
    let comment_read := Ev (CommentSelectAuthorId id) (Returns (Some uid)) in
    (exists data r,
        DeletePost = UpdatePost /\
        Zod.updatePostSchema (req_body (Sample.request "u1" "p3" JUndefined))
        = Zod.Success data /\
        t = [guard; post_read; Ev (PostUpdate id (Posts.updateData data)) r])
    \/ (exists r,
        DeletePost = DeletePost /\
        t = [guard; post_read; Ev (PostDelete id) r])
    \/ (exists data r,
        DeletePost = UpdateComment /\
        Zod.CommentSchema (req_body (Sample.request "u1" "p3" JUndefined))
        = Zod.Success data /\
        t = [guard; comment_read; Ev (CommentUpdate id (Zod.cm_content data)) r])
    \/ (exists r,
        DeletePost = DeleteComment /\
        t = [guard; comment_read; Ev (CommentDelete id) r]).
Proof.
  apply (mutation_only_by_owner Mem.Db (Mem.world Sample.creds) Sample.db
           Sample.secret DeletePost (Sample.request "u1" "p3" JUndefined)).
  reflexivity.
Defined.

(** ** Accounts *)

(** X3. Against any implementation of the awaited calls, Register answers
    200 only when the payload parsed, [bcrypt.hash] (10 rounds) returned for
    the payload's password and [user.create] returned for the payload's
    username and email with that hash as the password; the answer carries
    the id of the created row. *)
Theorem register_success_stores_the_hash :
  forall (W : Type) (impl : World W) (w : W) (secret : string)
         (req : Request) (resp : Response),
    outcome (run impl (route secret Register req) w) = Done resp ->
    status resp = 200 ->
    exists (data : Zod.UserData) (hashed : string) (user : User) (w1 w2 : W),
      Zod.UserSchema (req_body req) = Zod.Success data /\
      exec impl (BcryptHash (Zod.password data) 10) w = (Returns hashed, w1) /\
      exec impl (UserCreate (Zod.username data) hashed (Zod.email data)) w1
      = (Returns user, w2) /\
      resp = json 200 (MessageUserId "Registration successfull" (u_id user)) /\
      run impl (route secret Register req) w
      = (Done resp, w2,
         [Ev (BcryptHash (Zod.password data) 10) (Returns hashed);
          Ev (UserCreate (Zod.username data) hashed (Zod.email data))
             (Returns user)]).
Proof.
  intros W impl w secret req resp.
  change (route secret Register req) with (register req). unfold register.
  destruct (Zod.UserSchema (req_body req)) as [data|];
    [|intros [= <-]; discriminate].
  cbn.
  destruct (exec impl (BcryptHash (Zod.password data) 10) w)
    as [[hashed|e] w1] eqn:Eh; cbn; [|intros [= <-]; discriminate].
  destruct (exec impl (UserCreate (Zod.username data) hashed (Zod.email data)) w1)
    as [[user|e] w2] eqn:Ec; cbn; [|intros [= <-]; discriminate].
  intros [= <-] _. exists data, hashed, user, w1, w2. repeat split; assumption.
Qed.

Lemma register_success_stores_the_hash_witness :
  exists (data : Zod.UserData) (hashed : string) (user : User) (w1 w2 : Mem.Db),
    Zod.UserSchema (JObj [("username", JStr "carol");
                          ("email", JStr "carol@example.com");
                          ("password", JStr "long-enough")]) = Zod.Success data /\
    exec (Mem.world Sample.creds) (BcryptHash (Zod.password data) 10) Sample.db
    = (Returns hashed, w1) /\
    exec (Mem.world Sample.creds)
         (UserCreate (Zod.username data) hashed (Zod.email data)) w1
    = (Returns user, w2) /\
    json 200 (MessageUserId "Registration successfull" "id-7")
    = json 200 (MessageUserId "Registration successfull" (u_id user)) /\
    run (Mem.world Sample.creds)
        (route Sample.secret Register
           (Sample.anonymous "" (JObj [("username", JStr "carol");
                                       ("email", JStr "carol@example.com");
                                       ("password", JStr "long-enough")])))
        Sample.db
    = (Done (json 200 (MessageUserId "Registration successfull" "id-7")), w2,
       [Ev (BcryptHash (Zod.password data) 10) (Returns hashed);
        Ev (UserCreate (Zod.username data) hashed (Zod.email data))
           (Returns user)]).
Proof.
  apply (register_success_stores_the_hash Mem.Db (Mem.world Sample.creds)
           Sample.db Sample.secret
           (Sample.anonymous "" (JObj [("username", JStr "carol");
                                       ("email", JStr "carol@example.com");
                                       ("password", JStr "long-enough")])));
    reflexivity.
Defined.

(** X4. Against any implementation of the awaited calls, Login answers 200
    only when the payload parsed, the one lookup it selects returned a user,
    [bcrypt.compare] of the payload's password with that user's stored
    password returned [true], and [jwt.sign] returned for that user's id
    under the secret with [expiresIn: "1h"]; the answer carries that
    token. *)
Theorem login_success_requires_a_match :
  forall (W : Type) (impl : World W) (w : W) (secret : string)
         (req : Request) (resp : Response),
    outcome (run impl (route secret Login req) w) = Done resp ->
    status resp = 200 ->
    exists (data : Zod.SigninData) (by_ : UserWhere) (user : User)
           (token : string) (w1 w2 w3 : W),
      Zod.SigninSchem (req_body req) = Zod.Success data /\
      lookup_of data = [by_] /\
      exec impl (UserFindUnique by_) w = (Returns (Some user), w1) /\
      exec impl (BcryptCompare (Zod.si_password data) (u_password user)) w1
      = (Returns true, w2) /\
      exec impl (JwtSign (u_id user) secret (Some "1h")) w2 = (Returns token, w3) /\
      resp = json 200 (MessageToken "Login successful" token).
Proof.
  intros W impl w secret req resp.
  change (route secret Login req) with (login secret req). unfold login.
  destruct (Zod.SigninSchem (req_body req)) as [data|] eqn:Ed;
    [|intros [= <-]; discriminate].
  destruct (SigninSchem_success _ _ Ed) as (Hu & He & _).
  rewrite Hu, He.
  destruct (Zod.si_username data) as [u|] eqn:Eu;
    [|destruct (Zod.si_email data) as [m|] eqn:Em];
    run_cases; intros H Hs; try discriminate;
    injection H as <-; try discriminate;
    exists data; unfold lookup_of; rewrite ?Eu, ?Em;
    repeat eexists; eassumption.
Qed.

Lemma login_success_requires_a_match_witness :
  exists (data : Zod.SigninData) (by_ : UserWhere) (user : User)
         (token : string) (w1 w2 w3 : Mem.Db),
    Zod.SigninSchem (JObj [("email", JStr "bob@example.com");
                           ("password", JStr "battery-staple")])
    = Zod.Success data /\
    lookup_of data = [by_] /\
    exec (Mem.world Sample.creds) (UserFindUnique by_) Sample.db
    = (Returns (Some user), w1) /\
    exec (Mem.world Sample.creds)
         (BcryptCompare (Zod.si_password data) (u_password user)) w1
    = (Returns true, w2) /\
    exec (Mem.world Sample.creds) (JwtSign (u_id user) Sample.secret (Some "1h")) w2
    = (Returns token, w3) /\
    json 200 (MessageToken "Login successful" "s3cr3t.u2")
    = json 200 (MessageToken "Login successful" token).
Proof.
  apply (login_success_requires_a_match Mem.Db (Mem.world Sample.creds)
           Sample.db Sample.secret
           (Sample.anonymous "" (JObj [("email", JStr "bob@example.com");
                                       ("password", JStr "battery-staple")])));
    reflexivity.
Defined.

(** ** What the schemas accept *)

Lemma parse_string_in_bounds (sch : Zod.ZString) (s : string) :
  Zod.check_length sch s = true -> Zod.parse_string sch (JStr s) = Zod.Success s.
Proof. simpl; intros ->; reflexivity. Qed.

Lemma prop_string_of_object (body : jsval) (k s : string) :
  prop body k = JStr s -> Zod.is_object body = true.
Proof. destruct body; simpl; try discriminate; reflexivity. Qed.

Lemma in_bounds (lo : nat) (hi : option nat) (s : string) :
  lo <= String.length s ->
  match hi with Some h => String.length s <= h | None => True end ->
  Zod.check_length {| Zod.min := lo; Zod.max := hi |} s = true.
Proof. intros; apply check_length_bounds; simpl; auto. Qed.

(** X5. [UserSchema] accepts exactly the JSON objects whose [username],
    [email] and [password] are strings of 3 to 20, at least 1, and 8 to 30
    characters (bounds included), whatever other keys they carry, and hands
    the three strings back unchanged. *)
Theorem UserSchema_accepts_exactly :
  forall (body : jsval) (d : Zod.UserData),
    Zod.UserSchema body = Zod.Success d <->
    prop body "username" = JStr (Zod.username d) /\
    prop body "email" = JStr (Zod.email d) /\
    prop body "password" = JStr (Zod.password d) /\
    3 <= String.length (Zod.username d) <= 20 /\
    1 <= String.length (Zod.email d) /\
    8 <= String.length (Zod.password d) <= 30.
Proof.
  intros body d. unfold Zod.UserSchema. split.
  - destruct (Zod.is_object body); [|discriminate].
    destruct (Zod.parse_string _ (prop body "username")) as [u|] eqn:Eu; [|discriminate].
    destruct (Zod.parse_string _ (prop body "email")) as [e|] eqn:Ee; [|discriminate].
    destruct (Zod.parse_string _ (prop body "password")) as [p|] eqn:Ep; [|discriminate].
    intros [= <-]; simpl.
    apply parse_string_success in Eu, Ee, Ep.
    destruct Eu as [-> Eu], Ee as [-> Ee], Ep as [-> Ep].
    apply check_length_bounds in Eu, Ee, Ep. simpl in *.
    repeat split; try reflexivity; lia.
  - intros (Hu & He & Hp & Bu & Be & Bp).
    rewrite (prop_string_of_object _ _ _ Hu), Hu, He, Hp.
    rewrite !parse_string_in_bounds by (apply in_bounds; simpl; lia || exact I).
    destruct d; reflexivity.
Qed.

Lemma UserSchema_accepts_exactly_witness :
  Zod.UserSchema (JObj [("username", JStr "bob"); ("role", JStr "admin");
                        ("email", JStr "b"); ("password", JStr "12345678")])
  = Zod.Success {| Zod.username := "bob"; Zod.email := "b";
                   Zod.password := "12345678" |}.
Proof.
  apply (proj2 (UserSchema_accepts_exactly
                  (JObj [("username", JStr "bob"); ("role", JStr "admin");
                         ("email", JStr "b"); ("password", JStr "12345678")])
                  {| Zod.username := "bob"; Zod.email := "b";
                     Zod.password := "12345678" |})).
  simpl; repeat split; lia.
Defined.

(** X6. [updatePostSchema] accepts exactly the payloads in which [title] is
    absent or a string of 3 to 20 characters, [content] is absent or a
    string of at least 3 characters, and one of the two is present; a
    present field of another type ([null] included) is refused. *)
Theorem updatePostSchema_accepts_exactly :
  forall (body : jsval) (d : Zod.PostPatch),
    Zod.updatePostSchema body = Zod.Success d <->
    match Zod.up_title d with
    | Some t => prop body "title" = JStr t /\ 3 <= String.length t <= 20
    | None => prop body "title" = JUndefined
    end /\
    match Zod.up_content d with
    | Some c => prop body "content" = JStr c /\ 3 <= String.length c
    | None => prop body "content" = JUndefined
    end /\
    (Zod.up_title d <> None \/ Zod.up_content d <> None).
Proof.
  intros body d. split.
  - intros H. pose proof (updatePostSchema_success _ _ H) as Hone.
    revert H. unfold Zod.updatePostSchema.
    destruct (Zod.is_object body); [|discriminate].
    destruct (Zod.parse_optional _ (prop body "title")) as [t|] eqn:Et; [|discriminate].
    destruct (Zod.parse_optional _ (prop body "content")) as [c|] eqn:Ec; [|discriminate].
    destruct (Zod.refine_update _); [|discriminate].
    intros [= <-]. simpl.
    apply parse_optional_success in Et, Ec.
    repeat split; [| |exact Hone].
    + destruct t; [|assumption]. destruct Et as [-> Et].
      apply check_length_bounds in Et; simpl in Et. split; [reflexivity|lia].
    + destruct c; [|assumption]. destruct Ec as [-> Ec].
      apply check_length_bounds in Ec; simpl in Ec. split; [reflexivity|lia].
  - destruct d as [t c]; simpl. intros (Ht & Hc & Hone).
    assert (Ho : Zod.is_object body = true).
    { destruct t as [t|]; [eapply prop_string_of_object; apply Ht|].
      destruct c as [c|]; [eapply prop_string_of_object; apply Hc|].
      destruct Hone as [F|F]; now elim F. }
    assert (Pt : Zod.parse_optional {| Zod.min := 3; Zod.max := Some 20 |}
                   (prop body "title") = Zod.Success t).
    { destruct t as [t|]; [|now rewrite Ht].
      destruct Ht as [-> Ht]. unfold Zod.parse_optional.
      rewrite parse_string_in_bounds; [reflexivity|].
      apply in_bounds; simpl; lia. }
    assert (Pc : Zod.parse_optional {| Zod.min := 3; Zod.max := None |}
                   (prop body "content") = Zod.Success c).
    { destruct c as [c|]; [|now rewrite Hc].
      destruct Hc as [-> Hc]. unfold Zod.parse_optional.
      rewrite parse_string_in_bounds; [reflexivity|].
      apply in_bounds; simpl; [lia|exact I]. }
    unfold Zod.updatePostSchema. rewrite Ho, Pt, Pc.
    assert (R : Zod.refine_update {| Zod.up_title := t; Zod.up_content := c |} = true).
    { unfold Zod.refine_update; simpl. apply orb_true_iff.
      destruct t as [t|].
      - left. apply truthy_str_length. destruct Ht; lia.
      - destruct c as [c|].
        + right. apply truthy_str_length. destruct Hc; lia.
        + destruct Hone as [F|F]; now elim F. }
    now rewrite R.
Qed.

Lemma updatePostSchema_accepts_exactly_witness :
  Zod.updatePostSchema (JObj [("content", JStr "abc")])
  = Zod.Success {| Zod.up_title := None; Zod.up_content := Some "abc" |}.
Proof.
  apply (proj2 (updatePostSchema_accepts_exactly (JObj [("content", JStr "abc")])
                  {| Zod.up_title := None; Zod.up_content := Some "abc" |})).
  simpl. repeat split; try lia. right; discriminate.
Defined.

Lemma createPostSchema_success (body : jsval) (d : Zod.PostData) :
  Zod.createPostSchema body = Zod.Success d ->
  prop body "title" = JStr (Zod.title d) /\
  prop body "content" = JStr (Zod.content d) /\
  3 <= String.length (Zod.title d) <= 20 /\
  3 <= String.length (Zod.content d).
Proof.
  unfold Zod.createPostSchema. destruct (Zod.is_object body); [|discriminate].
  destruct (Zod.parse_string _ (prop body "title")) as [t|] eqn:Et; [|discriminate].
  destruct (Zod.parse_string _ (prop body "content")) as [c|] eqn:Ec; [|discriminate].
  intros [= <-]; simpl.
  apply parse_string_success in Et, Ec.
  destruct Et as [-> Et], Ec as [-> Ec].
  apply check_length_bounds in Et, Ec. simpl in *. repeat split; try reflexivity; lia.
Qed.

Lemma CommentSchema_success (body : jsval) (d : Zod.CommentData) :
  Zod.CommentSchema body = Zod.Success d ->
  prop body "content" = JStr (Zod.cm_content d) /\
  3 <= String.length (Zod.cm_content d) <= 500.
Proof.
  unfold Zod.CommentSchema. destruct (Zod.is_object body); [|discriminate].
  destruct (Zod.parse_string _ (prop body "content")) as [c|] eqn:Ec; [|discriminate].
  intros [= <-]; simpl.
  apply parse_string_success in Ec. destruct Ec as [-> Ec].
  apply check_length_bounds in Ec. simpl in *. split; [reflexivity | lia].
Qed.

Lemma createPostSchema_accepts (body : jsval) (t c : string) :
  prop body "title" = JStr t -> prop body "content" = JStr c ->
  3 <= String.length t <= 20 -> 3 <= String.length c ->
  Zod.createPostSchema body = Zod.Success {| Zod.title := t; Zod.content := c |}.
Proof.
  intros Ht Hc Bt Bc. unfold Zod.createPostSchema.
  rewrite (prop_string_of_object _ _ _ Ht), Ht, Hc.
  rewrite !parse_string_in_bounds by (apply in_bounds; simpl; lia || exact I).
  reflexivity.
Qed.

Lemma CommentSchema_accepts (body : jsval) (c : string) :
  prop body "content" = JStr c -> 3 <= String.length c <= 500 ->
  Zod.CommentSchema body = Zod.Success {| Zod.cm_content := c |}.
Proof.
  intros Hc Bc. unfold Zod.CommentSchema.
  rewrite (prop_string_of_object _ _ _ Hc), Hc.
  rewrite parse_string_in_bounds by (apply in_bounds; simpl; lia).
  reflexivity.
Qed.

(** ** Creating posts and comments *)

(** X7. Against any implementation of the awaited calls, Create Post with a
    [title] of 3 to 20 and a [content] of at least 3 characters makes
    exactly one call, [post.create] with those two strings and the caller's
    id from the guard as [author_id] (nothing else of the body), and answers
    200 with the new id if it returns and 500 if it throws; with any other
    body it answers 400 and calls nothing. *)
Theorem create_post_sends_payload_as_caller :
  forall (W : Type) (impl : World W) (w : W) (req : Request),
    (forall t c,
        prop (req_body req) "title" = JStr t ->
        prop (req_body req) "content" = JStr c ->
        3 <= String.length t <= 20 -> 3 <= String.length c ->
        run impl (Posts.create req) w
        = let '(r, w') := exec impl (PostCreate (userId req) t c) w in
          (Done match r with
                | Returns p => json 200 (MessagePostId "Post Created" (p_id p))
                | Throws _ => json 500 (Message "Unable to create Post")
                end, w', [Ev (PostCreate (userId req) t c) r]))
    /\ ((forall t c,
            ~ (prop (req_body req) "title" = JStr t /\
               prop (req_body req) "content" = JStr c /\
               3 <= String.length t <= 20 /\ 3 <= String.length c)) ->
        run impl (Posts.create req) w
        = (Done (json 400 (Message "Validationn Failed")), w, [])).
Proof.
  intros W impl w req. split.
  - intros t c Ht Hc Bt Bc. unfold Posts.create.
    rewrite (createPostSchema_accepts _ t c Ht Hc Bt Bc). cbn.
    destruct (exec impl (PostCreate (userId req) t c) w) as [[p|e] w']; reflexivity.
  - intros Hn. unfold Posts.create.
    destruct (Zod.createPostSchema (req_body req)) as [d|] eqn:E; [|reflexivity].
    apply createPostSchema_success in E.
    elim (Hn (Zod.title d) (Zod.content d)). tauto.
Qed.

Lemma create_post_sends_payload_as_caller_witness :
  run (Mem.world Sample.creds)
      (Posts.create
         (set_userId (Sample.request "u2" ""
                        (JObj [("title", JStr "New"); ("content", JStr "new post");
                               ("author_id", JStr "u1")]))
                     (Some "u2")))
      Sample.db
  = let '(r, w') := exec (Mem.world Sample.creds)
                         (PostCreate (Some "u2") "New" "new post") Sample.db in
    (Done match r with
          | Returns p => json 200 (MessagePostId "Post Created" (p_id p))
          | Throws _ => json 500 (Message "Unable to create Post")
          end, w', [Ev (PostCreate (Some "u2") "New" "new post") r]).
Proof.
  apply (proj1 (create_post_sends_payload_as_caller Mem.Db (Mem.world Sample.creds)
                  Sample.db
                  (set_userId (Sample.request "u2" ""
                                 (JObj [("title", JStr "New");
                                        ("content", JStr "new post");
                                        ("author_id", JStr "u1")]))
                              (Some "u2"))) "New" "new post");
    try reflexivity; simpl; lia.
Defined.

(** X8. Against any implementation of the awaited calls, Create Comment
    with a [content] of 3 to 500 characters answers 400 "postId is required"
    without any call when the body's [post_id] is missing or falsy, and
    otherwise makes exactly one call, [comment.create] with that [post_id]
    as it stands (a string or not), the content and the caller's id,
    answering 201 with the new id if it returns and 500 if it throws; with
    any other [content] it answers 400 "Invalid input" and calls nothing. *)
Theorem create_comment_needs_content_and_post :
  forall (W : Type) (impl : World W) (w : W) (req : Request),
    (forall c,
        prop (req_body req) "content" = JStr c ->
        3 <= String.length c <= 500 ->
        run impl (Comments.create req) w
        = if truthy (prop (req_body req) "post_id") then
            let call := CommentCreate (prop (req_body req) "post_id") c (userId req) in
            let '(r, w') := exec impl call w in
            (Done match r with
                  | Returns x => json 201 (MessageCommentId "Comment created"
                                             (c_id (cu_comment x)))
                  | Throws _ => json 500 (Message "Unable to create comment")
                  end, w', [Ev call r])
          else (Done (json 400 (Message "postId is required")), w, []))
    /\ ((forall c, ~ (prop (req_body req) "content" = JStr c /\
                      3 <= String.length c <= 500)) ->
        run impl (Comments.create req) w
        = (Done (json 400 (Message "Invalid input")), w, [])).
Proof.
  intros W impl w req. split.
  - intros c Hc Bc. unfold Comments.create.
    rewrite (CommentSchema_accepts _ c Hc Bc). cbn.
    destruct (truthy (prop (req_body req) "post_id")); [|reflexivity]. cbn.
    destruct (exec impl (CommentCreate _ c (userId req)) w) as [[x|e] w'];
      reflexivity.
  - intros Hn. unfold Comments.create.
    destruct (Zod.CommentSchema (req_body req)) as [d|] eqn:E; [|reflexivity].
    apply CommentSchema_success in E. elim (Hn (Zod.cm_content d)). tauto.
Qed.

Lemma create_comment_needs_content_and_post_witness :
  run (Mem.world Sample.creds)
      (Comments.create (Sample.request "u1" "" (JObj [("content", JStr "hello")])))
      Sample.db
  = (Done (json 400 (Message "postId is required")), Sample.db, []).
Proof.
  apply (proj1 (create_comment_needs_content_and_post Mem.Db
                  (Mem.world Sample.creds) Sample.db
                  (Sample.request "u1" "" (JObj [("content", JStr "hello")])))
           "hello"); [reflexivity | simpl; lia].
Defined.

(** ** The guard of the integration tests *)

Lemma test_guard_token (req : Request) :
  match authorization req with
  | Some t => if truthy_str t then t else ""
  | None => ""
  end = presented req.
Proof.
  unfold presented. destruct (authorization req) as [t|]; [|reflexivity].
  unfold truthy_str. destruct (String.eqb t "") eqn:E; [|reflexivity].
  apply String.eqb_eq in E. now subst.
Qed.

(** X9. The guard that [createIntegratedApp] installs answers 404
    "Not Authorized" whenever [jwt.verify] throws, entering no handler; when
    [jwt.verify] returns a truthy payload it runs exactly as [middleware]
    does under the same secret. *)
Theorem test_guard_catches_rejection :
  forall (W : Type) (impl : World W) (w : W) (next : Handler) (req : Request),
    let verify := JwtVerify (presented req) IntegrationTest.JWT_SECRET in
    (forall e w',
        exec impl verify w = (Throws e, w') ->
        run impl (IntegrationTest.middleware next req) w
        = (Done (json 404 (Message "Not Authorized")), w', [Ev verify (Throws e)]))
    /\ (forall d w',
        exec impl verify w = (Returns d, w') ->
        truthy_decoded d = true ->
        run impl (IntegrationTest.middleware next req) w
        = run impl (middleware IntegrationTest.JWT_SECRET next req) w).
Proof.
  intros W impl w next req verify. subst verify.
  unfold IntegrationTest.middleware, middleware.
  rewrite test_guard_token. fold (presented req). cbn. split.
  - intros e w' ->. reflexivity.
  - intros d w' -> T. cbn. rewrite T. reflexivity.
Qed.

Lemma test_guard_catches_rejection_witness :
  run (Mem.world Sample.creds)
      (IntegrationTest.middleware Posts.list (Sample.anonymous "" JUndefined))
      Sample.db
  = (Done (json 404 (Message "Not Authorized")), Sample.db,
     [Ev (JwtVerify "" IntegrationTest.JWT_SECRET)
         (Throws (Error "jwt must be provided"))]).
Proof.
  apply (proj1 (test_guard_catches_rejection Mem.Db (Mem.world Sample.creds)
                  Sample.db Posts.list (Sample.anonymous "" JUndefined))).
  reflexivity.
Defined.

(** * Further properties over the in-memory store *)

(** ** Calls that leave the store alone *)

Lemma mem_throw_unchanged (cs : Mem.Credentials) (X : Type) (c : Call X)
                          (db db' : Mem.Db) (e : JsError) :
  Mem.exec_mem cs X c db = (Throws e, db') -> db' = db.
Proof.
  destruct c; cbn;
    unfold Mem.user_create, Mem.post_create, Mem.post_update, Mem.post_delete,
           Mem.comment_create, Mem.comment_update, Mem.comment_delete;
    repeat match goal with
           | |- context [match ?x with _ => _ end] => destruct x
           end;
    congruence.
Qed.

Lemma mem_read_unchanged (cs : Mem.Credentials) (X : Type) (c : Call X)
                         (db db' : Mem.Db) (r : Reply X) :
  is_write c = false -> Mem.exec_mem cs X c db = (r, db') -> db' = db.
Proof. destruct c; cbn; try discriminate; congruence. Qed.

(** Case analysis on the replies of the in-memory client, call by call. *)
Ltac mem_cases :=
  repeat (cbn -[Mem.exec_mem];
          match goal with
          | |- context [Mem.exec_mem ?cs ?X ?c ?db] =>
              destruct (Mem.exec_mem cs X c db) as [[?|?] ?] eqn:?
          | |- context [match ?x with Some _ => _ | None => _ end] =>
              is_var x; destruct x
          | |- context [match ?x with Zod.Success _ => _ | Zod.Failure => _ end] =>
              destruct x eqn:?
          | |- context [if negb ?b then _ else _] => destruct b eqn:?
          | |- context [if ?b then _ else _] => destruct b eqn:?
          end);
  cbn -[Mem.exec_mem].

(** Every call that threw or only read left the store where it was. *)
Ltac unchanged :=
  repeat match goal with
         | E : Mem.exec_mem _ _ _ _ = (Throws _, _) |- _ =>
             apply mem_throw_unchanged in E; subst
         | E : Mem.exec_mem _ _ _ _ = (_, _) |- _ =>
             apply mem_read_unchanged in E; [subst | reflexivity]
         end.

(** X10. Over the in-memory store, whatever the credential primitives do,
    a request that is not answered with a 2xx status (one answered 4xx or
    5xx, or one whose error stays uncaught) leaves users, posts and comments
    exactly as they were. *)
Theorem failed_requests_change_nothing :
  forall (cs : Mem.Credentials) (secret : string) (db : Mem.Db)
         (op : Operation) (req : Request),
    (forall resp,
        outcome (run (Mem.world cs) (route secret op req) db) = Done resp ->
        ok resp = false ->
        final (run (Mem.world cs) (route secret op req) db) = db)
    /\ (forall e,
        outcome (run (Mem.world cs) (route secret op req) db) = Uncaught e ->
        final (run (Mem.world cs) (route secret op req) db) = db).
Proof.
  intros cs secret db op req.
  split; [intros resp | intros e];
    (destruct op; unfold route, protected, handler, middleware;
     unfold register, login, Posts.create, Posts.list, Posts.get, Posts.update,
            Posts.delete, Comments.create, Comments.list, Comments.listByPost,
            Comments.update, Comments.delete;
     login_cases req; mem_cases; intros H; try discriminate;
     try (injection H as <-; intros Hok; try discriminate);
     unchanged; reflexivity).
Qed.

Lemma failed_requests_change_nothing_witness :
  final (run (Mem.world Sample.creds)
             (route Sample.secret DeletePost (Sample.request "u1" "p1" JUndefined))
             Sample.db)
  = Sample.db.
Proof.
  apply (proj1 (failed_requests_change_nothing Sample.creds Sample.secret Sample.db
                  DeletePost (Sample.request "u1" "p1" JUndefined))
           (json 500 (Message "Server error")));
    reflexivity.
Defined.

(** X11. Login and the four GET routes never write: against any
    implementation of the awaited calls their trace holds no creating,
    updating or deleting store call, and over the in-memory store they leave
    the store exactly as it was, whatever they answer. *)
Theorem reads_never_write :
  forall (op : Operation) (secret : string) (req : Request),
    In op [Login; ListPosts; GetPost; ListComments; ListCommentsByPost] ->
    (forall (W : Type) (impl : World W) (w : W),
        existsb ev_write (trace (run impl (route secret op req) w)) = false)
    /\ (forall (cs : Mem.Credentials) (db : Mem.Db),
        final (run (Mem.world cs) (route secret op req) db) = db).
Proof.
  intros op secret req Hop.
  assert (E : op = Login \/ op = ListPosts \/ op = GetPost \/ op = ListComments
              \/ op = ListCommentsByPost) by (simpl in Hop; intuition (subst; auto 10)).
  clear Hop. split.
  - intros W impl w.
    destruct E as [-> | [-> | [-> | [-> | ->]]]];
      unfold route, protected, handler, middleware;
      unfold login, Posts.list, Posts.get, Comments.list, Comments.listByPost;
      login_cases req; run_cases; reflexivity.
  - intros cs db.
    destruct E as [-> | [-> | [-> | [-> | ->]]]];
      unfold route, protected, handler, middleware;
      unfold login, Posts.list, Posts.get, Comments.list, Comments.listByPost;
      login_cases req; mem_cases; unchanged; reflexivity.
Qed.

Lemma reads_never_write_witness :
  final (run (Mem.world Sample.creds)
             (route Sample.secret GetPost (Sample.request "u2" "p1" JUndefined))
             Sample.db)
  = Sample.db.
Proof.
  apply (proj2 (reads_never_write GetPost Sample.secret
                  (Sample.request "u2" "p1" JUndefined)
                  (or_intror (or_intror (or_introl eq_refl))))).
Defined.

(** ** Registering, then logging in *)

Lemma UserSchema_success (body : jsval) (d : Zod.UserData) :
  Zod.UserSchema body = Zod.Success d ->
  3 <= String.length (Zod.username d) <= 20 /\
  1 <= String.length (Zod.email d) /\
  8 <= String.length (Zod.password d) <= 30.
Proof.
  unfold Zod.UserSchema. destruct (Zod.is_object body); [|discriminate].
  destruct (Zod.parse_string _ (prop body "username")) as [u|] eqn:Eu; [|discriminate].
  destruct (Zod.parse_string _ (prop body "email")) as [e|] eqn:Ee; [|discriminate].
  destruct (Zod.parse_string _ (prop body "password")) as [p|] eqn:Ep; [|discriminate].
  intros [= <-]; simpl.
  apply parse_string_success in Eu, Ee, Ep.
  destruct Eu as [_ Eu], Ee as [_ Ee], Ep as [_ Ep].
  apply check_length_bounds in Eu, Ee, Ep. simpl in *. lia.
Qed.

Lemma SigninSchem_by_username (n p : string) :
  3 <= String.length n <= 20 -> 8 <= String.length p <= 30 ->
  Zod.SigninSchem (JObj [("username", JStr n); ("password", JStr p)])
  = Zod.Success {| Zod.si_username := Some n; Zod.si_email := None;
                   Zod.si_password := p |}.
Proof.
  intros Bn Bp. unfold Zod.SigninSchem. cbn [Zod.is_object].
  change (prop (JObj [("username", JStr n); ("password", JStr p)]) "username")
    with (JStr n).
  change (prop (JObj [("username", JStr n); ("password", JStr p)]) "email")
    with JUndefined.
  change (prop (JObj [("username", JStr n); ("password", JStr p)]) "password")
    with (JStr p).
  unfold Zod.parse_optional.
  rewrite !parse_string_in_bounds by (apply in_bounds; simpl; lia).
  reflexivity.
Qed.

Lemma SigninSchem_by_email (m p : string) :
  1 <= String.length m -> 8 <= String.length p <= 30 ->
  Zod.SigninSchem (JObj [("email", JStr m); ("password", JStr p)])
  = Zod.Success {| Zod.si_username := None; Zod.si_email := Some m;
                   Zod.si_password := p |}.
Proof.
  intros Bm Bp. unfold Zod.SigninSchem. cbn [Zod.is_object].
  change (prop (JObj [("email", JStr m); ("password", JStr p)]) "username")
    with JUndefined.
  change (prop (JObj [("email", JStr m); ("password", JStr p)]) "email")
    with (JStr m).
  change (prop (JObj [("email", JStr m); ("password", JStr p)]) "password")
    with (JStr p).
  unfold Zod.parse_optional.
  rewrite !parse_string_in_bounds by (apply in_bounds; simpl; lia || exact I).
  reflexivity.
Qed.

Lemma find_last {T} (f : T -> bool) (l : list T) (x : T) :
  find f l = None -> f x = true -> find f (l ++ [x])%list = Some x.
Proof.
  intros Hl Hx. induction l as [|y l IH]; simpl in *; [now rewrite Hx|].
  destruct (f y); [discriminate | auto].
Qed.

Lemma find_before_last {T} (f : T -> bool) (l : list T) (x y : T) :
  find f l = Some y -> find f (l ++ [x])%list = Some y.
Proof.
  induction l as [|z l IH]; simpl; [discriminate|].
  destruct (f z); auto.
Qed.

Lemma existsb_or_false {T} (f g : T -> bool) (l : list T) :
  existsb (fun x => f x || g x) l = false -> find f l = None /\ find g l = None.
Proof.
  induction l as [|y l IH]; simpl; [auto|].
  intros H. apply orb_false_iff in H. destruct H as [H1 H2].
  apply orb_false_iff in H1. destruct H1 as [-> ->]. auto.
Qed.

(** X12. Over the in-memory store, registering a valid payload whose
    username and email no stored user has, with [bcrypt.hash] returning a
    hash that [bcrypt.compare] accepts for the same password, answers 200
    with the new user's id and appends one user whose stored password is
    that hash; a Login with the same username and password, or with the same
    email and password, then answers 200 with the token signed for that
    id. *)
Theorem register_then_login :
  forall (cs : Mem.Credentials) (secret : string) (db : Mem.Db) (req : Request)
         (data : Zod.UserData) (hashed token : string),
    Zod.UserSchema (req_body req) = Zod.Success data ->
    existsb (fun u => String.eqb (u_username u) (Zod.username data)
                      || String.eqb (u_email u) (Zod.email data))
            (Mem.users db) = false ->
    Mem.hash cs (Zod.password data) 10 = Returns hashed ->
    Mem.compare cs (Zod.password data) hashed = Returns true ->
    Mem.sign cs (Mem.fresh_id db) secret (Some "1h") = Returns token ->
    let r := run (Mem.world cs) (route secret Register req) db in
    let created :=
      {| u_id := Mem.fresh_id db; u_username := Zod.username data;
         u_email := Zod.email data; u_password := hashed;
         u_created_at := Mem.now db; u_updated_at := Mem.now db |} in
    outcome r
    = Done (json 200 (MessageUserId "Registration successfull" (Mem.fresh_id db))) /\
    Mem.users (final r) = (Mem.users db ++ [created])%list /\
    Mem.posts (final r) = Mem.posts db /\
    Mem.comments (final r) = Mem.comments db /\
    (forall req',
        req_body req' = JObj [("username", JStr (Zod.username data));
                              ("password", JStr (Zod.password data))] \/
        req_body req' = JObj [("email", JStr (Zod.email data));
                              ("password", JStr (Zod.password data))] ->
        outcome (run (Mem.world cs) (route secret Login req') (final r))
        = Done (json 200 (MessageToken "Login successful" token))).
Proof.
  intros cs secret db req data hashed token Hd Hnew Hh Hc Hs r created.
  destruct (UserSchema_success _ _ Hd) as (Bu & Be & Bp).
  destruct (existsb_or_false _ _ _ Hnew) as [Fu Fe].
  assert (R : r = (Done (json 200 (MessageUserId "Registration successfull"
                                     (Mem.fresh_id db))),
                   Mem.tick db (Mem.users db ++ [created])%list (Mem.posts db)
                            (Mem.comments db) true,
                   [Ev (BcryptHash (Zod.password data) 10) (Returns hashed);
                    Ev (UserCreate (Zod.username data) hashed (Zod.email data))
                       (Returns created)])).
  { subst r. change (route secret Register req) with (register req).
    unfold register. rewrite Hd. cbn. rewrite Hh. cbn.
    unfold Mem.user_create. rewrite Hnew. reflexivity. }
  rewrite R. repeat split.
  intros req' Hbody.
  change (route secret Login req') with (login secret req'). unfold login.
  destruct Hbody as [-> | ->].
  - rewrite (SigninSchem_by_username _ _ Bu Bp). cbn -[Mem.tick].
    rewrite (truthy_str_length (Zod.username data)) by lia. cbn -[Mem.fresh_id].
    rewrite (find_last _ _ created Fu) by (cbn; apply String.eqb_refl).
    cbn -[Mem.fresh_id]. rewrite Hc. cbn -[Mem.fresh_id]. rewrite Hs. reflexivity.
  - rewrite (SigninSchem_by_email _ _ Be Bp). cbn -[Mem.tick].
    rewrite (truthy_str_length (Zod.email data)) by lia. cbn -[Mem.fresh_id].
    rewrite (find_last _ _ created Fe) by (cbn; apply String.eqb_refl).
    cbn -[Mem.fresh_id]. rewrite Hc. cbn -[Mem.fresh_id]. rewrite Hs. reflexivity.
Qed.

Lemma register_then_login_witness :
  outcome (run (Mem.world Sample.creds)
               (route Sample.secret Register
                  (Sample.anonymous ""
                     (JObj [("username", JStr "carol");
                            ("email", JStr "carol@example.com");
                            ("password", JStr "long-enough")])))
               Sample.db)
  = Done (json 200 (MessageUserId "Registration successfull" "id-7")).
Proof.
  apply (register_then_login Sample.creds Sample.secret Sample.db
           (Sample.anonymous ""
              (JObj [("username", JStr "carol");
                     ("email", JStr "carol@example.com");
                     ("password", JStr "long-enough")]))
           {| Zod.username := "carol"; Zod.email := "carol@example.com";
              Zod.password := "long-enough" |}
           "$2b$long-enough" "s3cr3t.id-7");
    reflexivity.
Defined.

(** X13. Over the in-memory store, registering a valid payload whose
    username or email a stored user already has answers 409 "User Already
    exists" and stores nothing, whatever [bcrypt.hash] does. *)
Theorem register_duplicate_is_conflict :
  forall (cs : Mem.Credentials) (secret : string) (db : Mem.Db) (req : Request)
         (data : Zod.UserData),
    Zod.UserSchema (req_body req) = Zod.Success data ->
    existsb (fun u => String.eqb (u_username u) (Zod.username data)
                      || String.eqb (u_email u) (Zod.email data))
            (Mem.users db) = true ->
    outcome (run (Mem.world cs) (route secret Register req) db)
    = Done (json 409 (Message "User Already exists")) /\
    final (run (Mem.world cs) (route secret Register req) db) = db.
Proof.
  intros cs secret db req data Hd Hdup.
  change (route secret Register req) with (register req).
  unfold register. rewrite Hd. cbn.
  destruct (Mem.hash cs (Zod.password data) 10) as [h|e]; cbn; [|split; reflexivity].
  unfold Mem.user_create. rewrite Hdup. split; reflexivity.
Qed.

Lemma register_duplicate_is_conflict_witness :
  outcome (run (Mem.world Sample.creds)
               (route Sample.secret Register
                  (Sample.anonymous ""
                     (JObj [("username", JStr "alice2");
                            ("email", JStr "alice@example.com");
                            ("password", JStr "long-enough")])))
               Sample.db)
  = Done (json 409 (Message "User Already exists")).
Proof.
  apply (register_duplicate_is_conflict Sample.creds Sample.secret Sample.db
           (Sample.anonymous ""
              (JObj [("username", JStr "alice2");
                     ("email", JStr "alice@example.com");
                     ("password", JStr "long-enough")]))
           {| Zod.username := "alice2"; Zod.email := "alice@example.com";
              Zod.password := "long-enough" |});
    reflexivity.
Defined.

(** ** Creating, then reading back *)

Lemma fresh_id_truthy (db : Mem.Db) : truthy_str (Mem.fresh_id db) = true.
Proof. unfold Mem.fresh_id, truthy_str. reflexivity. Qed.

(** X14. Over the in-memory store, Create Post by an authenticated, stored
    user with a valid payload answers 200 with the generated id and appends
    one post carrying the payload's title and content and the caller's id as
    author; provided no post already had that id, Get Post on the returned
    id then answers 200 with that post and its author's id, username and
    email. *)
Theorem create_post_then_get :
  forall (cs : Mem.Credentials) (secret : string) (db : Mem.Db)
         (req req' : Request) (uid uid' t c : string) (author : User),
    authenticated cs secret req uid ->
    prop (req_body req) "title" = JStr t ->
    prop (req_body req) "content" = JStr c ->
    3 <= String.length t <= 20 -> 3 <= String.length c ->
    Mem.user_by_id uid db = Some author ->
    Mem.find_post (Mem.fresh_id db) db = None ->
    authenticated cs secret req' uid' ->
    param req' = Mem.fresh_id db ->
    let r := run (Mem.world cs) (route secret CreatePost req) db in
    let created :=
      {| p_id := Mem.fresh_id db; p_title := t; p_content := c;
         p_author_id := uid; p_created_at := Mem.now db;
         p_updated_at := Mem.now db |} in
    outcome r = Done (json 200 (MessagePostId "Post Created" (Mem.fresh_id db))) /\
    Mem.posts (final r) = (Mem.posts db ++ [created])%list /\
    Mem.users (final r) = Mem.users db /\
    Mem.comments (final r) = Mem.comments db /\
    exists full,
      outcome (run (Mem.world cs) (route secret GetPost req') (final r))
      = Done (json 200 (MessagePost "Got the single post" full)) /\
      pf_post full = created /\
      pf_author full = Some {| a_id := u_id author; a_username := u_username author;
                               a_email := u_email author |}.
Proof.
  intros cs secret db req req' uid uid' t c author Hv Ht Hc Bt Bc Hu Hfresh
         Hv' Hid r created.
  assert (R : r = (Done (json 200 (MessagePostId "Post Created" (Mem.fresh_id db))),
                   Mem.tick db (Mem.users db) (Mem.posts db ++ [created])%list
                            (Mem.comments db) true,
                   [verified secret req uid;
                    Ev (PostCreate (Some uid) t c) (Returns created)])).
  { subst r. rewrite (run_authenticated cs secret _ CreatePost req uid eq_refl Hv).
    unfold handler, Posts.create.
    change (req_body (set_userId req (Some uid))) with (req_body req).
    rewrite (createPostSchema_accepts _ t c Ht Hc Bt Bc). cbn -[Mem.fresh_id].
    unfold Mem.post_create. rewrite Hu. reflexivity. }
  rewrite R. repeat split.
  eexists. rewrite (run_authenticated cs secret _ GetPost req' uid' eq_refl Hv').
  unfold handler, Posts.get. rewrite param_set_userId, Hid, fresh_id_truthy.
  cbn -[Mem.fresh_id Mem.find_post Mem.full].
  assert (F : Mem.find_post (Mem.fresh_id db)
                (Mem.tick db (Mem.users db) (Mem.posts db ++ [created])%list
                          (Mem.comments db) true) = Some created).
  { unfold Mem.find_post in *. cbn [Mem.posts Mem.tick].
    apply find_last; [assumption | cbn; apply String.eqb_refl]. }
  rewrite F. cbn -[Mem.fresh_id Mem.full]. split; [reflexivity|].
  split; [reflexivity|].
  unfold Mem.full, Mem.author_of. cbn [pf_author p_author_id created].
  unfold Mem.user_by_id in *. cbn [Mem.users Mem.tick]. rewrite Hu. reflexivity.
Qed.

Lemma create_post_then_get_witness :
  outcome (run (Mem.world Sample.creds)
               (route Sample.secret CreatePost
                  (Sample.request "u2" ""
                     (JObj [("title", JStr "New"); ("content", JStr "new post")])))
               Sample.db)
  = Done (json 200 (MessagePostId "Post Created" "id-7")).
Proof.
  apply (create_post_then_get Sample.creds Sample.secret Sample.db
           (Sample.request "u2" ""
              (JObj [("title", JStr "New"); ("content", JStr "new post")]))
           (Sample.request "u1" "id-7" JUndefined)
           "u2" "u1" "New" "new post" Sample.bob);
    try reflexivity; simpl; lia.
Defined.

(** X15. Over the in-memory store, Create Comment by an authenticated,
    stored user on an existing post with a valid content answers 201 with
    the generated id and appends one comment with that content, post and
    author; List Comments-by-post for that post then answers 200 with a list
    that holds it. *)
Theorem create_comment_then_list :
  forall (cs : Mem.Credentials) (secret : string) (db : Mem.Db)
         (req req' : Request) (uid uid' pid c : string) (author : User)
         (post : Post),
    authenticated cs secret req uid ->
    prop (req_body req) "content" = JStr c ->
    3 <= String.length c <= 500 ->
    prop (req_body req) "post_id" = JStr pid -> pid <> "" ->
    Mem.find_post pid db = Some post ->
    Mem.user_by_id uid db = Some author ->
    authenticated cs secret req' uid' ->
    param req' = pid ->
    let r := run (Mem.world cs) (route secret CreateComment req) db in
    let created :=
      {| c_id := Mem.fresh_id db; c_content := c; c_post_id := pid;
         c_author_id := uid; c_created_at := Mem.now db;
         c_updated_at := Mem.now db |} in
    outcome r
    = Done (json 201 (MessageCommentId "Comment created" (Mem.fresh_id db))) /\
    Mem.comments (final r) = (Mem.comments db ++ [created])%list /\
    Mem.posts (final r) = Mem.posts db /\
    Mem.users (final r) = Mem.users db /\
    exists l,
      outcome (run (Mem.world cs) (route secret ListCommentsByPost req') (final r))
      = Done (json 200 (MessageComments "Got comments" l)) /\
      In created (map cw_comment l).
Proof.
  intros cs secret db req req' uid uid' pid c author post Hv Hc Bc Hp Hne Hf Hu
         Hv' Hid r created.
  assert (R : r = (Done (json 201 (MessageCommentId "Comment created"
                                     (Mem.fresh_id db))),
                   Mem.tick db (Mem.users db) (Mem.posts db)
                            (Mem.comments db ++ [created])%list true,
                   [verified secret req uid;
                    Ev (CommentCreate (JStr pid) c (Some uid))
                       (Returns {| cu_comment := created;
                                   cu_athor := Some author |})])).
  { subst r. rewrite (run_authenticated cs secret _ CreateComment req uid eq_refl Hv).
    unfold handler, Comments.create.
    change (req_body (set_userId req (Some uid))) with (req_body req).
    rewrite (CommentSchema_accepts _ c Hc Bc), Hp.
    cbn -[Mem.fresh_id Mem.comment_create].
    change (negb (pid =? "")%string) with (truthy_str pid).
    rewrite (truthy_str_nonempty _ Hne). cbn -[Mem.fresh_id Mem.comment_create].
    unfold Mem.comment_create. rewrite Hf, Hu. reflexivity. }
  rewrite R. repeat split.
  eexists. rewrite (run_authenticated cs secret _ ListCommentsByPost req' uid' eq_refl Hv').
  unfold handler, Comments.listByPost. rewrite param_set_userId, Hid.
  cbn -[Mem.fresh_id Mem.comments_of]. split; [reflexivity|].
  rewrite map_map, map_id.
  apply (Permutation_in _ (Permutation_sym (sort_desc_perm c_created_at _))).
  unfold Mem.comments_of. cbn [Mem.comments Mem.tick].
  apply filter_In. split.
  - apply in_or_app. right. left. reflexivity.
  - cbn. apply String.eqb_refl.
Qed.

Lemma create_comment_then_list_witness :
  outcome (run (Mem.world Sample.creds)
               (route Sample.secret CreateComment
                  (Sample.request "u2" ""
                     (JObj [("content", JStr "me too"); ("post_id", JStr "p2")])))
               Sample.db)
  = Done (json 201 (MessageCommentId "Comment created" "id-7")).
Proof.
  apply (create_comment_then_list Sample.creds Sample.secret Sample.db
           (Sample.request "u2" ""
              (JObj [("content", JStr "me too"); ("post_id", JStr "p2")]))
           (Sample.request "u1" "p2" JUndefined)
           "u2" "u1" "p2" "me too" Sample.bob Sample.post2);
    try reflexivity; try discriminate; simpl; lia.
Defined.

(** X16. Over the in-memory store, Create Comment with a valid content and
    a truthy [post_id] that is not the id of a stored post (a string naming
    no post, or a value that is not a string) answers 500 "Unable to create
    comment", not 404, and stores nothing. *)
Theorem create_comment_on_missing_post_is_500 :
  forall (cs : Mem.Credentials) (secret : string) (db : Mem.Db)
         (req : Request) (uid c : string),
    authenticated cs secret req uid ->
    prop (req_body req) "content" = JStr c ->
    3 <= String.length c <= 500 ->
    truthy (prop (req_body req) "post_id") = true ->
    (forall pid, prop (req_body req) "post_id" = JStr pid ->
                 Mem.find_post pid db = None) ->
    outcome (run (Mem.world cs) (route secret CreateComment req) db)
    = Done (json 500 (Message "Unable to create comment")) /\
    final (run (Mem.world cs) (route secret CreateComment req) db) = db.
Proof.
  intros cs secret db req uid c Hv Hc Bc Ht Hmiss.
  rewrite (run_authenticated cs secret _ CreateComment req uid eq_refl Hv).
  unfold handler, Comments.create.
  change (req_body (set_userId req (Some uid))) with (req_body req).
  rewrite (CommentSchema_accepts _ c Hc Bc). cbn -[Mem.comment_create truthy].
  rewrite Ht. cbn -[Mem.comment_create].
  unfold Mem.comment_create.
  destruct (prop (req_body req) "post_id") as [| | | |pid| |] eqn:E;
    try (split; reflexivity).
  rewrite (Hmiss pid eq_refl). split; reflexivity.
Qed.

Lemma create_comment_on_missing_post_is_500_witness :
  outcome (run (Mem.world Sample.creds)
               (route Sample.secret CreateComment
                  (Sample.request "u2" ""
                     (JObj [("content", JStr "lost"); ("post_id", JNum 2)])))
               Sample.db)
  = Done (json 500 (Message "Unable to create comment")).
Proof.
  apply (create_comment_on_missing_post_is_500 Sample.creds Sample.secret Sample.db
           (Sample.request "u2" ""
              (JObj [("content", JStr "lost"); ("post_id", JNum 2)]))
           "u2" "lost");
    try reflexivity; [simpl; lia | discriminate].
Defined.

(** ** Deleting *)

(** X17. Over the in-memory store, Delete Post by its author while some
    comment still references the post answers 500 "Server error": the
    delete is refused by the comment's foreign key ([ON DELETE RESTRICT])
    and the post and its comments stay. *)
Theorem delete_post_with_comments_is_500 :
  forall (cs : Mem.Credentials) (secret : string) (db : Mem.Db)
         (req : Request) (uid : string) (p : Post),
    authenticated cs secret req uid ->
    param req <> "" ->
    Mem.find_post (param req) db = Some p ->
    p_author_id p = uid ->
    existsb (fun c => String.eqb (c_post_id c) (param req)) (Mem.comments db) = true ->
    run (Mem.world cs) (route secret DeletePost req) db
    = (Done (json 500 (Message "Server error")), db,
       [verified secret req uid;
        Ev (PostSelectAuthorId (param req)) (Returns (Some uid));
        Ev (PostDelete (param req))
           (Throws (Error "Foreign key constraint failed"))]).
Proof.
  intros cs secret db req uid p Hv Hid Hf Ha Hc.
  rewrite (run_authenticated cs secret _ DeletePost req uid eq_refl Hv).
  unfold handler. rewrite run_post_delete, param_set_userId.
  rewrite (truthy_str_nonempty _ Hid), Hf.
  change (userId (set_userId req (Some uid))) with (Some uid).
  subst uid. rewrite strict_neq_same.
  unfold Mem.post_delete. rewrite Hf, Hc. reflexivity.
Qed.

Lemma delete_post_with_comments_is_500_witness :
  run (Mem.world Sample.creds)
      (route Sample.secret DeletePost (Sample.request "u1" "p1" JUndefined))
      Sample.db
  = (Done (json 500 (Message "Server error")), Sample.db,
     [verified Sample.secret (Sample.request "u1" "p1" JUndefined) "u1";
      Ev (PostSelectAuthorId "p1") (Returns (Some "u1"));
      Ev (PostDelete "p1") (Throws (Error "Foreign key constraint failed"))]).
Proof.
  apply (delete_post_with_comments_is_500 Sample.creds Sample.secret Sample.db
           (Sample.request "u1" "p1" JUndefined) "u1" Sample.post1);
    try reflexivity; discriminate.
Defined.

(** X18. Over the in-memory store, when Delete Post answers 204 no comment
    referenced the post, every post under that id is gone, the posts under
    other ids are kept in order, and users and comments are as they were. *)
Theorem delete_post_removes_only_the_post :
  forall (cs : Mem.Credentials) (secret : string) (db : Mem.Db) (req : Request),
    outcome (run (Mem.world cs) (route secret DeletePost req) db) = Done (send 204) ->
    let db' := final (run (Mem.world cs) (route secret DeletePost req) db) in
    Mem.posts db'
    = filter (fun q => negb (String.eqb (p_id q) (param req))) (Mem.posts db) /\
    Mem.users db' = Mem.users db /\
    Mem.comments db' = Mem.comments db /\
    existsb (fun c => String.eqb (c_post_id c) (param req)) (Mem.comments db) = false.
Proof.
  intros cs secret db req Ho db'. subst db'. revert Ho.
  rewrite (run_guarded cs secret db DeletePost req eq_refl).
  destruct (Mem.verify cs (presented req) secret) as [d|e]; [|discriminate].
  cbn zeta. destruct (truthy_decoded d); [|discriminate].
  unfold handler. rewrite run_post_delete, param_set_userId.
  destruct (negb (truthy_str (param req))); [discriminate|].
  cbn zeta.
  destruct (Mem.find_post (param req) db) as [p|] eqn:Ef; [|discriminate].
  destruct (strict_neq (p_author_id p) _); [discriminate|].
  unfold Mem.post_delete. rewrite Ef.
  destruct (existsb _ (Mem.comments db)); [discriminate|].
  intros _. repeat split.
Qed.

Lemma delete_post_removes_only_the_post_witness :
  Mem.posts (final (run (Mem.world Sample.creds)
                        (route Sample.secret DeletePost
                           (Sample.request "u1" "p3" JUndefined))
                        Sample.db))
  = filter (fun q => negb (String.eqb (p_id q) "p3")) (Mem.posts Sample.db).
Proof.
  apply (delete_post_removes_only_the_post Sample.creds Sample.secret Sample.db
           (Sample.request "u1" "p3" JUndefined)).
  reflexivity.
Defined.

(** X19. Over the in-memory store, when Delete Comment answers 204 every
    comment under that id is gone, the comments under other ids are kept in
    order, and users and posts are as they were. *)
Theorem delete_comment_removes_only_the_comment :
  forall (cs : Mem.Credentials) (secret : string) (db : Mem.Db) (req : Request),
    outcome (run (Mem.world cs) (route secret DeleteComment req) db)
    = Done (send 204) ->
    let db' := final (run (Mem.world cs) (route secret DeleteComment req) db) in
    Mem.comments db'
    = filter (fun q => negb (String.eqb (c_id q) (param req))) (Mem.comments db) /\
    Mem.users db' = Mem.users db /\
    Mem.posts db' = Mem.posts db.
Proof.
  intros cs secret db req Ho db'. subst db'. revert Ho.
  rewrite (run_guarded cs secret db DeleteComment req eq_refl).
  destruct (Mem.verify cs (presented req) secret) as [d|e]; [|discriminate].
  cbn zeta. destruct (truthy_decoded d); [|discriminate].
  unfold handler. rewrite run_comment_delete, param_set_userId.
  cbn zeta.
  destruct (Mem.find_comment (param req) db) as [c|] eqn:Ef; [|discriminate].
  destruct (strict_neq (c_author_id c) _); [discriminate|].
  unfold Mem.comment_delete. rewrite Ef.
  intros _. repeat split.
Qed.

Lemma delete_comment_removes_only_the_comment_witness :
  Mem.comments (final (run (Mem.world Sample.creds)
                           (route Sample.secret DeleteComment
                              (Sample.request "u2" "c1" JUndefined))
                           Sample.db))
  = filter (fun q => negb (String.eqb (c_id q) "c1")) (Mem.comments Sample.db).
Proof.
  apply (delete_comment_removes_only_the_comment Sample.creds Sample.secret
           Sample.db (Sample.request "u2" "c1" JUndefined)).
  reflexivity.
Defined.

(** ** Updating a comment *)

Lemma find_comment_after_update (id : string) (f : Comment -> Comment)
                                (cs : list Comment) :
  (forall q, c_id (f q) = c_id q) ->
  find (fun c => String.eqb (c_id c) id)
       (map (fun q => if String.eqb (c_id q) id then f q else q) cs)
  = option_map f (find (fun c => String.eqb (c_id c) id) cs).
Proof.
  intros Hf. induction cs as [|q cs IH]; simpl; [reflexivity|].
  destruct (String.eqb (c_id q) id) eqn:E.
  - now rewrite Hf, E.
  - now rewrite E.
Qed.

Lemma find_other_comment_after_update (id other : string) (f : Comment -> Comment)
                                      (cs : list Comment) :
  (forall q, c_id (f q) = c_id q) -> other <> id ->
  find (fun c => String.eqb (c_id c) other)
       (map (fun q => if String.eqb (c_id q) id then f q else q) cs)
  = find (fun c => String.eqb (c_id c) other) cs.
Proof.
  intros Hf Hne. induction cs as [|q cs IH]; simpl; [reflexivity|].
  destruct (String.eqb (c_id q) id) eqn:E.
  - rewrite Hf. apply String.eqb_eq in E. rewrite E.
    apply String.eqb_neq in Hne. rewrite String.eqb_sym in Hne.
    now rewrite Hne.
  - now rewrite IH.
Qed.

(** X20. Over the in-memory store, when Update Comment answers 200 the
    payload's content had 3 to 500 characters, the comment existed, and
    afterwards the comment under that id has that content and the same
    [id], [post_id], [author_id] and [created_at]; the answer carries that
    comment; users, posts and comments under other ids are as they were. *)
Theorem update_comment_writes_content_only :
  forall (cs : Mem.Credentials) (secret : string) (db : Mem.Db)
         (req : Request) (resp : Response),
    outcome (run (Mem.world cs) (route secret UpdateComment req) db) = Done resp ->
    status resp = 200 ->
    let db' := final (run (Mem.world cs) (route secret UpdateComment req) db) in
    exists (c c' : Comment) (content : string),
      prop (req_body req) "content" = JStr content /\
      3 <= String.length content <= 500 /\
      Mem.find_comment (param req) db = Some c /\
      Mem.find_comment (param req) db' = Some c' /\
      resp = json 200 (MessageComment "Comment updated" c') /\
      c_content c' = content /\
      c_id c' = c_id c /\
      c_post_id c' = c_post_id c /\
      c_author_id c' = c_author_id c /\
      c_created_at c' = c_created_at c /\
      Mem.users db' = Mem.users db /\
      Mem.posts db' = Mem.posts db /\
      (forall other, other <> param req ->
                     Mem.find_comment other db' = Mem.find_comment other db).
Proof.
  intros cs secret db req resp Ho Hs db'. subst db'. revert Ho.
  rewrite (run_guarded cs secret db UpdateComment req eq_refl).
  destruct (Mem.verify cs (presented req) secret) as [d|e]; [|discriminate].
  cbn zeta.
  destruct (truthy_decoded d); [|intros [= <-]; discriminate].
  unfold handler. rewrite run_comment_update, param_set_userId.
  change (req_body (set_userId req (decoded_userId d))) with (req_body req).
  destruct (Zod.CommentSchema (req_body req)) as [data|] eqn:Ed;
    [|intros [= <-]; discriminate].
  cbn zeta.
  destruct (Mem.find_comment (param req) db) as [c|] eqn:Ef;
    [|intros [= <-]; discriminate].
  destruct (strict_neq (c_author_id c) _);
    [intros [= <-]; discriminate|].
  unfold Mem.comment_update. rewrite Ef. intros [= <-].
  destruct (CommentSchema_success _ _ Ed) as [Hc Bc].
  exists c, (Mem.set_content_of (Zod.cm_content data) (Mem.now db) c),
         (Zod.cm_content data).
  split; [assumption|]. split; [assumption|]. split; [reflexivity|].
  split.
  { unfold Mem.find_comment in *. cbn [final fst snd Mem.comments Mem.tick].
    rewrite find_comment_after_update by reflexivity. now rewrite Ef. }
  repeat (split; [reflexivity|]).
  intros other Hne. unfold Mem.find_comment.
  cbn [final fst snd Mem.comments Mem.tick].
  now apply find_other_comment_after_update.
Qed.

Lemma update_comment_writes_content_only_witness :
  exists (c c' : Comment) (content : string),
    prop (JObj [("content", JStr "very nice"); ("post_id", JStr "p2")]) "content"
    = JStr content /\
    3 <= String.length content <= 500 /\
    Mem.find_comment "c1" Sample.db = Some c /\
    Mem.find_comment "c1"
      (final (run (Mem.world Sample.creds)
                  (route Sample.secret UpdateComment
                     (Sample.request "u2" "c1"
                        (JObj [("content", JStr "very nice");
                               ("post_id", JStr "p2")])))
                  Sample.db)) = Some c' /\
    json 200 (MessageComment "Comment updated"
                (Mem.set_content_of "very nice" 100%Z Sample.comment1))
    = json 200 (MessageComment "Comment updated" c') /\
    c_content c' = content /\
    c_id c' = c_id c /\
    c_post_id c' = c_post_id c /\
    c_author_id c' = c_author_id c /\
    c_created_at c' = c_created_at c /\
    Mem.users
      (final (run (Mem.world Sample.creds)
                  (route Sample.secret UpdateComment
                     (Sample.request "u2" "c1"
                        (JObj [("content", JStr "very nice");
                               ("post_id", JStr "p2")])))
                  Sample.db)) = Mem.users Sample.db /\
    Mem.posts
      (final (run (Mem.world Sample.creds)
                  (route Sample.secret UpdateComment
                     (Sample.request "u2" "c1"
                        (JObj [("content", JStr "very nice");
                               ("post_id", JStr "p2")])))
                  Sample.db)) = Mem.posts Sample.db /\
    (forall other, other <> "c1" ->
       Mem.find_comment other
         (final (run (Mem.world Sample.creds)
                     (route Sample.secret UpdateComment
                        (Sample.request "u2" "c1"
                           (JObj [("content", JStr "very nice");
                                  ("post_id", JStr "p2")])))
                     Sample.db)) = Mem.find_comment other Sample.db).
Proof.
  apply (update_comment_writes_content_only Sample.creds Sample.secret Sample.db
           (Sample.request "u2" "c1"
              (JObj [("content", JStr "very nice"); ("post_id", JStr "p2")]))
           (json 200 (MessageComment "Comment updated"
                        (Mem.set_content_of "very nice" 100%Z Sample.comment1))));
    reflexivity.
Defined.

(** ** Updating twice *)

(** The one way Update Post answers 200 over the in-memory store. *)
Lemma run_update_post_ok (cs : Mem.Credentials) (secret : string) (db : Mem.Db)
                         (req : Request) (d : Decoded) (data : Zod.PostPatch)
                         (p : Post) :
  Mem.verify cs (presented req) secret = Returns d ->
  truthy_decoded d = true ->
  truthy_str (param req) = true ->
  Zod.updatePostSchema (req_body req) = Zod.Success data ->
  Mem.find_post (param req) db = Some p ->
  strict_neq (p_author_id p) (decoded_userId d) = false ->
  let p' := Mem.patch (Posts.updateData data) (Mem.now db) p in
  let db' :=
    Mem.tick db (Mem.users db)
             (map (fun q => if String.eqb (p_id q) (param req)
                            then Mem.patch (Posts.updateData data) (Mem.now db) q
                            else q) (Mem.posts db))
             (Mem.comments db) false in
  outcome (run (Mem.world cs) (route secret UpdatePost req) db)
  = Done (json 200 (MessageUpdatedPost "Post updated" (Mem.with_author db p'))) /\
  final (run (Mem.world cs) (route secret UpdatePost req) db) = db' /\
  Mem.find_post (param req) db' = Some p'.
Proof.
  intros Hv Ht Hp Hd Hf Hs p' db'.
  rewrite (run_guarded cs secret db UpdatePost req eq_refl), Hv. cbn zeta.
  rewrite Ht. unfold handler. rewrite run_post_update, param_set_userId.
  change (req_body (set_userId req (decoded_userId d))) with (req_body req).
  change (userId (set_userId req (decoded_userId d))) with (decoded_userId d).
  rewrite Hp, Hd. cbn zeta. cbv iota. cbn [negb]. rewrite Hf, Hs.
  unfold Mem.post_update. rewrite Hf.
  split; [reflexivity|]. split; [reflexivity|].
  unfold Mem.find_post in *. subst db'. cbn [Mem.posts Mem.tick].
  rewrite find_post_after_update by reflexivity. now rewrite Hf.
Qed.

Lemma update_post_200_inv (cs : Mem.Credentials) (secret : string) (db : Mem.Db)
                          (req : Request) (resp : Response) :
  outcome (run (Mem.world cs) (route secret UpdatePost req) db) = Done resp ->
  status resp = 200 ->
  exists (d : Decoded) (data : Zod.PostPatch) (p : Post),
    Mem.verify cs (presented req) secret = Returns d /\
    truthy_decoded d = true /\
    truthy_str (param req) = true /\
    Zod.updatePostSchema (req_body req) = Zod.Success data /\
    Mem.find_post (param req) db = Some p /\
    strict_neq (p_author_id p) (decoded_userId d) = false.
Proof.
  intros Ho Hs. revert Ho.
  rewrite (run_guarded cs secret db UpdatePost req eq_refl).
  destruct (Mem.verify cs (presented req) secret) as [d|e]; [|discriminate].
  cbn zeta.
  destruct (truthy_decoded d) eqn:Et; [|intros [= <-]; discriminate].
  unfold handler. rewrite run_post_update, param_set_userId.
  change (req_body (set_userId req (decoded_userId d))) with (req_body req).
  change (userId (set_userId req (decoded_userId d))) with (decoded_userId d).
  destruct (truthy_str (param req)) eqn:Ep;
    [|intros [= <-]; discriminate].
  cbn [negb].
  destruct (Zod.updatePostSchema (req_body req)) as [data|];
    [|intros [= <-]; discriminate].
  cbn zeta.
  destruct (Mem.find_post (param req) db) as [p|] eqn:Ef;
    [|intros [= <-]; discriminate].
  destruct (strict_neq (p_author_id p) (decoded_userId d)) eqn:Es;
    [intros [= <-]; discriminate|].
  intros _. exists d, data, p. repeat split; assumption.
Qed.

(** X21. Over the in-memory store, when Update Post answers 200, sending
    the same request again answers 200 again and leaves the post with the
    same title, content, id, author and creation time as after the first
    update. *)
Theorem update_post_twice_is_update_once :
  forall (cs : Mem.Credentials) (secret : string) (db : Mem.Db)
         (req : Request) (resp : Response),
    outcome (run (Mem.world cs) (route secret UpdatePost req) db) = Done resp ->
    status resp = 200 ->
    let db1 := final (run (Mem.world cs) (route secret UpdatePost req) db) in
    let db2 := final (run (Mem.world cs) (route secret UpdatePost req) db1) in
    exists (resp2 : Response) (p1 p2 : Post),
      outcome (run (Mem.world cs) (route secret UpdatePost req) db1) = Done resp2 /\
      status resp2 = 200 /\
      Mem.find_post (param req) db1 = Some p1 /\
      Mem.find_post (param req) db2 = Some p2 /\
      p_title p2 = p_title p1 /\
      p_content p2 = p_content p1 /\
      p_id p2 = p_id p1 /\
      p_author_id p2 = p_author_id p1 /\
      p_created_at p2 = p_created_at p1.
Proof.
  intros cs secret db req resp Ho Hs db1 db2.
  destruct (update_post_200_inv cs secret db req resp Ho Hs)
    as (d & data & p & Hv & Ht & Hp & Hd & Hf & Hn).
  destruct (run_update_post_ok cs secret db req d data p Hv Ht Hp Hd Hf Hn)
    as (_ & F1 & Hf1).
  fold db1 in F1. rewrite <- F1 in Hf1.
  destruct (run_update_post_ok cs secret db1 req d data _ Hv Ht Hp Hd Hf1 Hn)
    as (O2 & F2 & Hf2).
  fold db2 in F2. rewrite <- F2 in Hf2.
  eexists _, _, _.
  split; [exact O2|]. split; [reflexivity|]. split; [exact Hf1|].
  split; [exact Hf2|].
  unfold Mem.patch; cbn.
  repeat split; [destruct (Zod.up_title data) | destruct (Zod.up_content data)];
    reflexivity.
Qed.

Lemma update_post_twice_is_update_once_witness :
  exists (resp2 : Response) (p1 p2 : Post),
    outcome (run (Mem.world Sample.creds)
                 (route Sample.secret UpdatePost
                    (Sample.request "u1" "p1" (JObj [("title", JStr "Renamed")])))
                 (final (run (Mem.world Sample.creds)
                             (route Sample.secret UpdatePost
                                (Sample.request "u1" "p1"
                                   (JObj [("title", JStr "Renamed")])))
                             Sample.db)))
    = Done resp2 /\
    status resp2 = 200 /\
    Mem.find_post "p1"
      (final (run (Mem.world Sample.creds)
                  (route Sample.secret UpdatePost
                     (Sample.request "u1" "p1" (JObj [("title", JStr "Renamed")])))
                  Sample.db)) = Some p1 /\
    Mem.find_post "p1"
      (final (run (Mem.world Sample.creds)
                  (route Sample.secret UpdatePost
                     (Sample.request "u1" "p1" (JObj [("title", JStr "Renamed")])))
                  (final (run (Mem.world Sample.creds)
                              (route Sample.secret UpdatePost
                                 (Sample.request "u1" "p1"
                                    (JObj [("title", JStr "Renamed")])))
                              Sample.db)))) = Some p2 /\
    p_title p2 = p_title p1 /\
    p_content p2 = p_content p1 /\
    p_id p2 = p_id p1 /\
    p_author_id p2 = p_author_id p1 /\
    p_created_at p2 = p_created_at p1.
Proof.
  apply (update_post_twice_is_update_once Sample.creds Sample.secret Sample.db
           (Sample.request "u1" "p1" (JObj [("title", JStr "Renamed")]))
           (json 200 (MessageUpdatedPost "Post updated"
              (Mem.with_author Sample.db
                 (Mem.patch {| set_title := Some "Renamed"; set_content := None |}
                            100%Z Sample.post1)))));
    reflexivity.
Defined.

(** ** Reading one post, and all comments *)

(** X22. Over the in-memory store, for an authenticated caller and a
    non-empty id, Get Post answers 404 when no post has the id and otherwise
    200 with the post, whose comments are exactly the comments that
    reference it, newest first. *)
Theorem get_post_answers :
  forall (cs : Mem.Credentials) (secret : string) (db : Mem.Db)
         (req : Request) (uid : string),
    authenticated cs secret req uid ->
    param req <> "" ->
    (Mem.find_post (param req) db = None ->
     run (Mem.world cs) (route secret GetPost req) db
     = (Done (json 404 (Message "Post not found")), db,
        [verified secret req uid;
         Ev (PostFindUnique (param req) (Some Desc)) (Returns None)]))
    /\ (forall p,
        Mem.find_post (param req) db = Some p ->
        exists full,
          outcome (run (Mem.world cs) (route secret GetPost req) db)
          = Done (json 200 (MessagePost "Got the single post" full)) /\
          pf_post full = p /\
          descending c_created_at (map cw_comment (pf_comments full)) /\
          Permutation (map cw_comment (pf_comments full))
                      (Mem.comments_of (p_id p) db)).
Proof.
  intros cs secret db req uid Hv Hid. split.
  - intros Hf.
    rewrite (run_authenticated cs secret _ GetPost req uid eq_refl Hv).
    unfold handler, Posts.get. rewrite param_set_userId.
    rewrite (truthy_str_nonempty _ Hid). cbn. rewrite Hf. reflexivity.
  - intros p Hf. eexists.
    rewrite (run_authenticated cs secret _ GetPost req uid eq_refl Hv).
    unfold handler, Posts.get. rewrite param_set_userId.
    rewrite (truthy_str_nonempty _ Hid). cbn -[Mem.full]. rewrite Hf.
    cbn -[Mem.full]. split; [reflexivity|]. split; [reflexivity|].
    unfold Mem.full. cbn [pf_comments Mem.order_by].
    rewrite map_map, map_id.
    split; [apply sort_desc_sorted | apply sort_desc_perm].
Qed.

Lemma get_post_answers_witness :
  run (Mem.world Sample.creds)
      (route Sample.secret GetPost (Sample.request "u2" "p9" JUndefined)) Sample.db
  = (Done (json 404 (Message "Post not found")), Sample.db,
     [verified Sample.secret (Sample.request "u2" "p9" JUndefined) "u2";
      Ev (PostFindUnique "p9" (Some Desc)) (Returns None)]).
Proof.
  apply (proj1 (get_post_answers Sample.creds Sample.secret Sample.db
                  (Sample.request "u2" "p9" JUndefined) "u2" eq_refl
                  ltac:(discriminate))).
  reflexivity.
Defined.

Lemma descending_map {A B} (f : A -> B) (ka : A -> Z) (kb : B -> Z) (l : list A) :
  (forall x, kb (f x) = ka x) -> descending ka l -> descending kb (map f l).
Proof.
  intros Hk. unfold descending. induction 1 as [|x l Hl IH Hx]; simpl.
  - constructor.
  - constructor; [assumption|].
    rewrite Forall_map. eapply Forall_impl; [|exact Hx].
    intros y Hy. simpl in Hy. now rewrite !Hk.
Qed.

(** X23. Over the in-memory store, for an authenticated caller List
    Comments answers 200 with one entry per stored comment, newest first,
    each carrying the comment's id, content and timestamps and, of its
    author, the id and username only. *)
Theorem list_comments_newest_first :
  forall (cs : Mem.Credentials) (secret : string) (db : Mem.Db)
         (req : Request) (uid : string),
    authenticated cs secret req uid ->
    exists l,
      run (Mem.world cs) (route secret ListComments req) db
      = (Done (json 200 (AllCommentsMessage l "Get all comments")), db,
         [verified secret req uid; Ev (CommentFindMany (Some Desc)) (Returns l)]) /\
      descending cb_created_at l /\
      (exists cs', Permutation cs' (Mem.comments db) /\ l = map (Mem.brief db) cs').
Proof.
  intros cs secret db req uid Hv.
  exists (map (Mem.brief db) (Mem.sort_desc c_created_at (Mem.comments db))).
  rewrite (run_authenticated cs secret _ ListComments req uid eq_refl Hv).
  split; [reflexivity|]. split.
  - apply (descending_map (Mem.brief db) c_created_at);
      [reflexivity | apply sort_desc_sorted].
  - eexists; split; [apply sort_desc_perm | reflexivity].
Qed.

Lemma list_comments_newest_first_witness :
  exists l,
    run (Mem.world Sample.creds)
        (route Sample.secret ListComments (Sample.request "u1" "" JUndefined))
        Sample.db
    = (Done (json 200 (AllCommentsMessage l "Get all comments")), Sample.db,
       [verified Sample.secret (Sample.request "u1" "" JUndefined) "u1";
        Ev (CommentFindMany (Some Desc)) (Returns l)]) /\
    descending cb_created_at l /\
    (exists cs', Permutation cs' (Mem.comments Sample.db) /\
                 l = map (Mem.brief Sample.db) cs').
Proof.
  apply (list_comments_newest_first Sample.creds Sample.secret Sample.db
           (Sample.request "u1" "" JUndefined) "u1").
  reflexivity.
Defined.
